(** * Freedom-Score front-end: the view/session controller

    A shallow embedding of the React component [App] of
    [frontend/src/App.js], of its earlier revision (the second unnamed
    source file, here [Part001]) and of the first, manual-only revision
    (the first unnamed source file, here [Part000]).

    React state is a record, every [setX] call is a record update, an
    [async] handler is split at its [await] into the part that runs on
    the click ([..._call]) and the part that runs when the HTTP response
    arrives ([..._resume]).  The browser (localStorage, the query string,
    the requests in flight, navigation) is an explicit [World]. *)

From Stdlib Require Import NArith List String Ascii Bool Lia.
From Stdlib Require QArith.
Import ListNotations.
Local Open Scope bool_scope.

(* ================================================================== *)
(** ** JavaScript strings *)

(** A JS string is a sequence of UTF-16 code units. *)
Definition jsstring := list N.

(** A source literal (all literals of the program are ASCII). *)
Definition lit (s : string) : jsstring :=
  map N_of_ascii (list_ascii_of_string s).

Fixpoint str_eqb (a b : jsstring) : bool :=
  match a, b with
  | [], [] => true
  | x :: a', y :: b' => N.eqb x y && str_eqb a' b'
  | _, _ => false
  end.

(** [x === 'literal'] where [x] may be [null]. *)
Definition opt_str_eqb (x : option jsstring) (b : jsstring) : bool :=
  match x with
  | Some a => str_eqb a b
  | None => false
  end.

(** Truthiness of a string: only the empty string is falsy. *)
Definition truthy (s : jsstring) : bool :=
  match s with
  | [] => false
  | _ :: _ => true
  end.

(** Truthiness of a value that is a string or [null]/[undefined]. *)
Definition truthy_opt (x : option jsstring) : bool :=
  match x with
  | Some s => truthy s
  | None => false
  end.

(** A value as it arrives in a JSON body: the backend's [detail] can be
    any of these, and so can the [error] cell it is stored in. *)
#[warnings="-register-all"] Inductive JSValue :=
| JSNull
| JSBool (b : bool)
| JSNumber (q : QArith_base.Q)
| JSString (s : jsstring)
| JSArray (items : list JSValue)
| JSObject (members : list (jsstring * JSValue)).

(** Truthiness: [null], [false], [0] and the empty string are falsy. *)
Definition truthy_value (v : JSValue) : bool :=
  match v with
  | JSNull => false
  | JSBool b => b
  | JSNumber q =>
      negb (QArith_base.Qeq_bool q (QArith_base.Qmake BinNums.Z0 1%positive))
  | JSString s => truthy s
  | JSArray _ | JSObject _ => true
  end.

(** Whether React accepts the value as a child ([<p>{error}</p>]): a
    plain object is refused ("Objects are not valid as a React child")
    and the render throws; an array is rendered item by item. *)
Fixpoint valid_child (v : JSValue) : bool :=
  match v with
  | JSObject _ => false
  | JSArray items =>
      (fix all (l : list JSValue) : bool :=
         match l with
         | [] => true
         | x :: r => valid_child x && all r
         end) items
  | JSNull | JSBool _ | JSNumber _ | JSString _ => true
  end.

(** [x || 'fallback'] for [x] any value, or [undefined] ([None]). *)
Definition or_else (x : option JSValue) (fallback : jsstring) : JSValue :=
  match x with
  | Some v => if truthy_value v then v else JSString fallback
  | None => JSString fallback
  end.

(** ECMAScript WhiteSpace and LineTerminator code points, the ones
    [String.prototype.trim] strips: TAB, LF, VT, FF, CR, SP, NBSP,
    U+1680, U+2000..U+200A, U+2028, U+2029, U+202F, U+205F, U+3000,
    U+FEFF. *)
Definition is_white (c : N) : bool :=
  ((9 <=? c) && (c <=? 13) || (c =? 32) || (c =? 160) || (c =? 5760)
   || (8192 <=? c) && (c <=? 8202) || (c =? 8232) || (c =? 8233)
   || (c =? 8239) || (c =? 8287) || (c =? 12288) || (c =? 65279))%N.

Fixpoint trimStart (s : jsstring) : jsstring :=
  match s with
  | [] => []
  | c :: r => if is_white c then trimStart r else s
  end.

Definition trimEnd (s : jsstring) : jsstring := rev (trimStart (rev s)).

Definition trim (s : jsstring) : jsstring := trimEnd (trimStart s).

(** The spec's "empty or whitespace-only". *)
Definition blank (s : jsstring) : bool := forallb is_white s.

(* ================================================================== *)
(** ** Data model *)

(** The session: the object kept in the [user] state.  [name] is [null]
    when the OAuth redirect carries no [name] parameter. *)
Record User := mkUser {
  id : jsstring;
  name : option jsstring;
  email : jsstring
}.

Record MeetingStats := mkMeetingStats {
  total_meetings : N;
  total_hours : jsstring;
  avg_meeting_length : jsstring;
  longest_meeting_free_block : jsstring
}.

(** The backend's answer; the front-end only stores and displays it. *)
Record Analysis := mkAnalysis {
  independence_percentage : N;
  witty_message : jsstring;
  meeting_stats : MeetingStats;
  recommendations : list jsstring;
  detailed_analysis : jsstring
}.

(** The seven [useState] cells of [App]. *)
Record State := mkState {
  user : option User;
  calendarData : jsstring;
  timePeriod : jsstring;
  analysis : option Analysis;
  loading : bool;
  error : JSValue;
  showManual : bool
}.

(** The arguments of the [useState] calls. *)
Definition initialState : State :=
  {| user := None;
     calendarData := [];
     timePeriod := lit "this_week";
     analysis := None;
     loading := false;
     error := JSString [];
     showManual := false |}.

Definition setUser (v : option User) (s : State) : State :=
  {| user := v; calendarData := calendarData s; timePeriod := timePeriod s;
     analysis := analysis s; loading := loading s; error := error s;
     showManual := showManual s |}.

Definition setCalendarData (v : jsstring) (s : State) : State :=
  {| user := user s; calendarData := v; timePeriod := timePeriod s;
     analysis := analysis s; loading := loading s; error := error s;
     showManual := showManual s |}.

Definition setTimePeriod (v : jsstring) (s : State) : State :=
  {| user := user s; calendarData := calendarData s; timePeriod := v;
     analysis := analysis s; loading := loading s; error := error s;
     showManual := showManual s |}.

Definition setAnalysis (v : option Analysis) (s : State) : State :=
  {| user := user s; calendarData := calendarData s; timePeriod := timePeriod s;
     analysis := v; loading := loading s; error := error s;
     showManual := showManual s |}.

Definition setLoading (v : bool) (s : State) : State :=
  {| user := user s; calendarData := calendarData s; timePeriod := timePeriod s;
     analysis := analysis s; loading := v; error := error s;
     showManual := showManual s |}.

Definition setError (v : JSValue) (s : State) : State :=
  {| user := user s; calendarData := calendarData s; timePeriod := timePeriod s;
     analysis := analysis s; loading := loading s; error := v;
     showManual := showManual s |}.

Definition setShowManual (v : bool) (s : State) : State :=
  {| user := user s; calendarData := calendarData s; timePeriod := timePeriod s;
     analysis := analysis s; loading := loading s; error := error s;
     showManual := v |}.

(* ================================================================== *)
(** ** The browser *)

(** The text in the [user_data] slot, by what the program can observe of
    it: whether it is the empty string, and what [JSON.parse] makes of it.
    [EmptyText] is the empty string (falsy, so never parsed);
    [Serialized u] is a text that decodes to the profile [u], as
    [JSON.stringify] of a profile object yields; [Malformed] is a
    non-empty text on which [JSON.parse] throws. *)
Inductive ProfileText :=
| EmptyText
| Serialized (u : User)
| Malformed.

Definition truthy_text (t : ProfileText) : bool :=
  match t with
  | EmptyText => false
  | Serialized _ | Malformed => true
  end.

(** [JSON.parse]; [None] is a thrown [SyntaxError]. *)
Definition JSON_parse (t : ProfileText) : option User :=
  match t with
  | Serialized u => Some u
  | EmptyText | Malformed => None
  end.

Definition JSON_stringify (u : User) : ProfileText := Serialized u.

(** [localStorage], restricted to the two keys the program uses:
    ['access_token'] and ['user_data'].  [None] is an absent key
    ([getItem] returns [null]). *)
Record Storage := mkStorage {
  access_token : option jsstring;
  user_data : option ProfileText
}.

Definition emptyStorage : Storage :=
  {| access_token := None; user_data := None |}.

Definition setItem_access_token (v : jsstring) (st : Storage) : Storage :=
  {| access_token := Some v; user_data := user_data st |}.

Definition setItem_user_data (v : ProfileText) (st : Storage) : Storage :=
  {| access_token := access_token st; user_data := Some v |}.

Definition removeItem_access_token (st : Storage) : Storage :=
  {| access_token := None; user_data := user_data st |}.

Definition removeItem_user_data (st : Storage) : Storage :=
  {| access_token := access_token st; user_data := None |}.

(** [new URLSearchParams(window.location.search)]: the decoded
    (key, value) pairs in order. *)
Definition Query := list (jsstring * jsstring).

(** [URLSearchParams.get]: the first value of the key, or [null]. *)
Fixpoint get (q : Query) (k : jsstring) : option jsstring :=
  match q with
  | [] => None
  | (k', v) :: r => if str_eqb k' k then Some v else get r k
  end.

(** The HTTP requests the program issues through axios. *)
Inductive Request :=
| PostAuthGoogle (token : jsstring)
| GetAuthGoogleCalendar
| PostAnalyzeCalendarAuto (time_period : jsstring) (bearer : option jsstring)
| PostAnalyzeCalendar (calendar_data time_period : jsstring).

(** What the [catch] clauses read of an axios error:
    [err.response?.status] and [err.response?.data?.detail]. *)
Record ErrorBody := mkErrorBody { detail : option JSValue }.

Record ErrorResponse := mkErrorResponse {
  status : N;
  data : option ErrorBody
}.

Record AxiosError := mkAxiosError { response : option ErrorResponse }.

Definition err_status (e : AxiosError) : option N :=
  match response e with
  | Some r => Some (status r)
  | None => None
  end.

(** [err.response?.status === n]. *)
Definition status_is (e : AxiosError) (n : N) : bool :=
  match err_status e with
  | Some s => N.eqb s n
  | None => false
  end.

Definition err_detail (e : AxiosError) : option JSValue :=
  match response e with
  | Some r =>
      match data r with
      | Some b => detail b
      | None => None
      end
  | None => None
  end.

(** The outcome of an awaited request: the promise resolves with
    [response.data] or rejects with an axios error. *)
Inductive Outcome (A : Type) :=
| Resolved (d : A)
| Rejected (e : AxiosError).
Arguments Resolved {A} d.
Arguments Rejected {A} e.

Record AuthData := mkAuthData {
  auth_access_token : jsstring;
  auth_user : User
}.

Record World := mkWorld {
  state : State;
  localStorage : Storage;
  search : Query;
  pending : list Request;     (* requests awaiting their response *)
  sent : list Request;        (* every request issued, oldest first *)
  href : option jsstring;     (* set once the page navigates away *)
  reloading : bool            (* [window.location.reload()] was called *)
}.

Definition update (f : State -> State) (w : World) : World :=
  {| state := f (state w); localStorage := localStorage w; search := search w;
     pending := pending w; sent := sent w; href := href w;
     reloading := reloading w |}.

Definition store (f : Storage -> Storage) (w : World) : World :=
  {| state := state w; localStorage := f (localStorage w); search := search w;
     pending := pending w; sent := sent w; href := href w;
     reloading := reloading w |}.

(** An axios call up to its [await]. *)
Definition issue (r : Request) (w : World) : World :=
  {| state := state w; localStorage := localStorage w; search := search w;
     pending := pending w ++ [r]; sent := sent w ++ [r]; href := href w;
     reloading := reloading w |}.

(** [window.history.replaceState({}, '', window.location.pathname)]. *)
Definition replaceState (w : World) : World :=
  {| state := state w; localStorage := localStorage w; search := [];
     pending := pending w; sent := sent w; href := href w;
     reloading := reloading w |}.

Definition reload (w : World) : World :=
  {| state := state w; localStorage := localStorage w; search := search w;
     pending := pending w; sent := sent w; href := href w;
     reloading := true |}.

Definition navigate (url : jsstring) (w : World) : World :=
  {| state := state w; localStorage := localStorage w; search := search w;
     pending := pending w; sent := sent w; href := Some url;
     reloading := reloading w |}.

(* ================================================================== *)
(** ** The two revisions of the authenticated front-end *)

(** [AppJs] is [frontend/src/App.js]; [Part001] is its earlier revision.
    They differ in the OAuth-callback branch of the mount effect, in two
    message texts and in nothing else the model covers. *)
Inductive Variant := AppJs | Part001.

Definition msg_paste_first (v : Variant) : jsstring :=
  match v with
  | AppJs => lit "Please paste your schedule data first!"
  | Part001 => lit "Please paste your calendar data first!"
  end.

Definition msg_manual_failed (v : Variant) : jsstring :=
  match v with
  | AppJs => lit "Failed to analyze your freedom. Please try again."
  | Part001 => lit "Failed to analyze calendar. Please try again."
  end.

Definition msg_auto_failed : jsstring :=
  lit "Failed to analyze calendar. Please try again.".

Definition msg_calendar_access_required : jsstring :=
  lit "Calendar access required. Please authorize Google Calendar access first.".

Definition msg_login_failed : jsstring :=
  lit "Login failed. Please try again.".

Definition msg_google_login_failed : jsstring :=
  lit "Google login failed. Please try again.".

Definition msg_calendar_access_failed : jsstring :=
  lit "Failed to request calendar access.".

Definition msg_authorization_failed : jsstring :=
  lit "Google Calendar authorization failed. Please try again.".

(* ------------------------------------------------------------------ *)
(** *** The mount effect ([useEffect(..., [])]) *)

(** First half of the effect: "Check if user is already logged in".
    [None] when [JSON.parse] throws. *)
Definition restoreSession (w : World) : option World :=
  let token := access_token (localStorage w) in
  let userData := user_data (localStorage w) in
  match token, userData with
  | Some t, Some d =>
      if truthy t && truthy_text d then
        match JSON_parse d with
        | Some u => Some (update (setUser (Some u)) w)
        | None => None
        end
      else Some w
  | _, _ => Some w
  end.

(** Second half of the effect: "Check for OAuth callback". *)
Definition oauthCallback (v : Variant) (w : World) : World :=
  let urlParams := search w in
  let authStatus := get urlParams (lit "auth") in
  match v with
  | AppJs =>
      let authToken := get urlParams (lit "token") in
      let userEmail := get urlParams (lit "user") in
      let userName := get urlParams (lit "name") in
      if opt_str_eqb authStatus (lit "success")
         && truthy_opt authToken && truthy_opt userEmail
      then
        match authToken, userEmail with
        | Some tok, Some mail =>
            let u := {| id := mail; name := userName; email := mail |} in
            replaceState
              (update (setUser (Some u))
                 (store (setItem_user_data (JSON_stringify u))
                    (store (setItem_access_token tok) w)))
        | _, _ => w   (* not reached: both are non-empty strings here *)
        end
      else if opt_str_eqb authStatus (lit "error")
      then update (setError (JSString msg_authorization_failed)) w
      else w
  | Part001 =>
      if opt_str_eqb authStatus (lit "success")
      then reload (replaceState w)
      else if opt_str_eqb authStatus (lit "error")
      then update (setError (JSString msg_authorization_failed)) w
      else w
  end.

Definition useEffect (v : Variant) (w : World) : option World :=
  match restoreSession w with
  | Some w1 => Some (oauthCallback v w1)
  | None => None
  end.

(** The component as first rendered, before the effect has run. *)
Definition mount (st : Storage) (q : Query) : World :=
  {| state := initialState; localStorage := st; search := q;
     pending := []; sent := []; href := None; reloading := false |}.

(** An initial load: mount, run the effect, and when the effect asked
    for a reload, mount again on what the reload finds. *)
Definition load (v : Variant) (st : Storage) (q : Query) : option World :=
  match useEffect v (mount st q) with
  | Some w =>
      if reloading w
      then useEffect v (mount (localStorage w) (search w))
      else Some w
  | None => None
  end.

(* ------------------------------------------------------------------ *)
(** *** Handlers *)

Definition handleGoogleLogin_call (credential : jsstring) (w : World) : World :=
  issue (PostAuthGoogle credential)
    (update (setError (JSString [])) (update (setLoading true) w)).

Definition handleGoogleLogin_resume (r : Outcome AuthData) (w : World) : World :=
  let w' :=
    match r with
    | Resolved d =>
        update (setUser (Some (auth_user d)))
          (store (setItem_user_data (JSON_stringify (auth_user d)))
             (store (setItem_access_token (auth_access_token d)) w))
    | Rejected e =>
        update (setError (or_else (err_detail e) msg_login_failed)) w
    end in
  update (setLoading false) w'.

Definition handleGoogleLoginError (w : World) : World :=
  update (setError (JSString msg_google_login_failed)) w.

Definition requestCalendarAccess_call (w : World) : World :=
  issue GetAuthGoogleCalendar
    (update (setError (JSString [])) (update (setLoading true) w)).

Definition requestCalendarAccess_resume (r : Outcome jsstring) (w : World) : World :=
  match r with
  | Resolved authorization_url => navigate authorization_url w
  | Rejected e =>
      update (setLoading false)
        (update (setError (or_else (err_detail e) msg_calendar_access_failed)) w)
  end.

Definition analyzeCalendarAuto_call (w : World) : World :=
  let w1 := update (setError (JSString [])) (update (setLoading true) w) in
  let token := access_token (localStorage w1) in
  issue (PostAnalyzeCalendarAuto (timePeriod (state w)) token) w1.

Definition analyzeCalendarAuto_resume (r : Outcome Analysis) (w : World) : World :=
  let w' :=
    match r with
    | Resolved d => update (setAnalysis (Some d)) w
    | Rejected err =>
        if status_is err 401
        then update (setError (JSString msg_calendar_access_required)) w
        else update (setError (or_else (err_detail err) msg_auto_failed)) w
    end in
  update (setLoading false) w'.

Definition analyzeCalendarManual_call (v : Variant) (w : World) : World :=
  if negb (truthy (trim (calendarData (state w)))) then
    update (setError (JSString (msg_paste_first v))) w
  else
    issue (PostAnalyzeCalendar (calendarData (state w)) (timePeriod (state w)))
      (update (setError (JSString [])) (update (setLoading true) w)).

Definition analyzeCalendarManual_resume (v : Variant) (r : Outcome Analysis)
    (w : World) : World :=
  let w' :=
    match r with
    | Resolved d => update (setAnalysis (Some d)) w
    | Rejected err =>
        update (setError (or_else (err_detail err) (msg_manual_failed v))) w
    end in
  update (setLoading false) w'.

Definition logout (w : World) : World :=
  update (setShowManual false)
    (update (setError (JSString []))
       (update (setCalendarData [])
          (update (setAnalysis None)
             (update (setUser None)
                (store removeItem_user_data
                   (store removeItem_access_token w)))))).

Definition resetAnalysis (w : World) : World :=
  update (setError (JSString []))
    (update (setCalendarData [])
       (update (setAnalysis None) w)).

(* ------------------------------------------------------------------ *)
(** *** Rendering *)

Inductive Screen := ManualScreen | LoginScreen | DashboardScreen.

(** The interactive elements of the returned JSX tree. *)
Inductive Control :=
| BackToLoginLink
| TimePeriodSelect (options : list jsstring)
| CalendarTextarea
| AnalyzeManualButton (disabled : bool)
| ResetButton
| GoogleLoginButton
| ManualModeLink
| LogoutButton
| AuthorizeButton
| AnalyzeAutoButton (disabled : bool).

(** What a render returns: which of the three trees, its controls in
    document order, the error box and the results panel when shown. *)
Record View := mkView {
  screen : Screen;
  controls : list Control;
  error_box : option JSValue;
  results : option Analysis
}.

(** Whether React can mount what a render returned: the value in the
    error box must be a valid child, or the render throws and, with no
    error boundary, the whole page is unmounted. *)
Definition renders (v : View) : bool :=
  match error_box v with
  | Some e => valid_child e
  | None => true
  end.

(** The [<option value=...>] lists of the two selectors. *)
Definition manual_select_options : list jsstring :=
  [lit "today"; lit "this week"; lit "this month"; lit "recent days"].

Definition dashboard_select_options : list jsstring :=
  [lit "today"; lit "this_week"; lit "this_month"; lit "recent_days"].

(** [{error && <div>...</div>}]. *)
Definition show_error (s : State) : option JSValue :=
  if truthy_value (error s) then Some (error s) else None.

(** The body of [App] after the handlers: the three [return]s. *)
Definition App (s : State) : View :=
  if showManual s then
    match analysis s with
    | None =>
        {| screen := ManualScreen;
           controls :=
             [BackToLoginLink; TimePeriodSelect manual_select_options;
              CalendarTextarea;
              AnalyzeManualButton
                (loading s || negb (truthy (trim (calendarData s))))];
           error_box := show_error s;
           results := None |}
    | Some a =>
        {| screen := ManualScreen;
           controls := [BackToLoginLink; ResetButton];
           error_box := None;
           results := Some a |}
    end
  else
    match user s with
    | None =>
        {| screen := LoginScreen;
           controls := [GoogleLoginButton; ManualModeLink];
           error_box := show_error s;
           results := None |}
    | Some _ =>
        match analysis s with
        | None =>
            {| screen := DashboardScreen;
               controls :=
                 [LogoutButton; TimePeriodSelect dashboard_select_options;
                  AuthorizeButton; AnalyzeAutoButton (loading s);
                  CalendarTextarea;
                  AnalyzeManualButton
                    (loading s || negb (truthy (trim (calendarData s))))];
               error_box := show_error s;
               results := None |}
        | Some a =>
            {| screen := DashboardScreen;
               controls := [LogoutButton; ResetButton];
               error_box := None;
               results := Some a |}
        end
    end.

Definition screen_eqb (a b : Screen) : bool :=
  match a, b with
  | ManualScreen, ManualScreen
  | LoginScreen, LoginScreen
  | DashboardScreen, DashboardScreen => true
  | _, _ => false
  end.

(** Screen [x] is the one a render of [s] puts on the page. *)
Definition visible (s : State) (x : Screen) : bool :=
  screen_eqb (screen (App s)) x.

(* ------------------------------------------------------------------ *)
(** *** Events *)

(** What the user and the network can do to a mounted component. *)
Inductive Reply :=
| AuthReply (r : Outcome AuthData)
| UrlReply (r : Outcome jsstring)
| AnalysisReply (r : Outcome Analysis).

Inductive Event :=
| ClickBackToLogin
| SelectTimePeriod (value : jsstring)
| TypeCalendarData (text : jsstring)
| ClickAnalyzeManual
| ClickReset
| GoogleCredential (credential : jsstring)
| GoogleError
| ClickManualMode
| ClickLogout
| ClickAuthorize
| ClickAnalyzeAuto
| Respond (i : nat) (r : Reply).

Definition is_enabled (pick : Control -> bool) (w : World) : bool :=
  existsb pick (controls (App (state w))).

(** The selector on the page offers [value]. *)
Definition offers (value : jsstring) (c : Control) : bool :=
  match c with
  | TimePeriodSelect options => existsb (str_eqb value) options
  | _ => false
  end.

Fixpoint remove_nth {A : Type} (i : nat) (l : list A) : list A :=
  match i, l with
  | _, [] => []
  | O, _ :: r => r
  | S j, x :: r => x :: remove_nth j r
  end.

Definition settle (i : nat) (w : World) : World :=
  {| state := state w; localStorage := localStorage w; search := search w;
     pending := remove_nth i (pending w); sent := sent w; href := href w;
     reloading := reloading w |}.

(** The continuation that awaits request [q], run on reply [r]. *)
Definition resume (v : Variant) (q : Request) (r : Reply) (w : World)
    : option World :=
  match q, r with
  | PostAuthGoogle _, AuthReply o => Some (handleGoogleLogin_resume o w)
  | GetAuthGoogleCalendar, UrlReply o => Some (requestCalendarAccess_resume o w)
  | PostAnalyzeCalendarAuto _ _, AnalysisReply o =>
      Some (analyzeCalendarAuto_resume o w)
  | PostAnalyzeCalendar _ _, AnalysisReply o =>
      Some (analyzeCalendarManual_resume v o w)
  | _, _ => None
  end.

Definition when (b : bool) (w : World) : option World :=
  if b then Some w else None.

(** One event on a mounted component; [None] when the event cannot
    happen: the control is not on the page or is disabled, the page has
    navigated away or was unmounted by a render that threw, or no such
    request is in flight. *)
Definition step (v : Variant) (w : World) (e : Event) : option World :=
  match href w, reloading w with
  | None, false =>
      if renders (App (state w)) then
      match e with
      | ClickBackToLogin =>
          when (is_enabled (fun c => match c with BackToLoginLink => true | _ => false end) w)
               (update (setShowManual false) w)
      | SelectTimePeriod value =>
          when (is_enabled (offers value) w) (update (setTimePeriod value) w)
      | TypeCalendarData text =>
          when (is_enabled (fun c => match c with CalendarTextarea => true | _ => false end) w)
               (update (setCalendarData text) w)
      | ClickAnalyzeManual =>
          when (is_enabled (fun c => match c with AnalyzeManualButton d => negb d | _ => false end) w)
               (analyzeCalendarManual_call v w)
      | ClickReset =>
          when (is_enabled (fun c => match c with ResetButton => true | _ => false end) w)
               (resetAnalysis w)
      | GoogleCredential credential =>
          when (is_enabled (fun c => match c with GoogleLoginButton => true | _ => false end) w)
               (handleGoogleLogin_call credential w)
      | GoogleError =>
          when (is_enabled (fun c => match c with GoogleLoginButton => true | _ => false end) w)
               (handleGoogleLoginError w)
      | ClickManualMode =>
          when (is_enabled (fun c => match c with ManualModeLink => true | _ => false end) w)
               (update (setShowManual true) w)
      | ClickLogout =>
          when (is_enabled (fun c => match c with LogoutButton => true | _ => false end) w)
               (logout w)
      | ClickAuthorize =>
          when (is_enabled (fun c => match c with AuthorizeButton => true | _ => false end) w)
               (requestCalendarAccess_call w)
      | ClickAnalyzeAuto =>
          when (is_enabled (fun c => match c with AnalyzeAutoButton d => negb d | _ => false end) w)
               (analyzeCalendarAuto_call w)
      | Respond i r =>
          match nth_error (pending w) i with
          | Some q => resume v q r (settle i w)
          | None => None
          end
      end
      else None
  | _, _ => None
  end.

Fixpoint run (v : Variant) (w : World) (events : list Event) : option World :=
  match events with
  | [] => Some w
  | e :: rest =>
      match step v w e with
      | Some w' => run v w' rest
      | None => None
      end
  end.

(** The worlds a session can be in: an initial load followed by events. *)
Definition reachable (v : Variant) (w : World) : Prop :=
  exists st q w0 events, load v st q = Some w0 /\ run v w0 events = Some w.

(* ------------------------------------------------------------------ *)
(** *** Score colours *)

From Stdlib Require QArith.

(** [getFreedomColor] and [getFreedomGradient] of [App.js]; the
    percentage is a finite number, taken as a rational. *)
Definition getFreedomColor (percentage : QArith_base.Q) : jsstring :=
  if QArith_base.Qle_bool (QArith_base.Qmake (BinNums.Zpos 70%positive) 1%positive) percentage
  then lit "text-green-400"
  else if QArith_base.Qle_bool (QArith_base.Qmake (BinNums.Zpos 40%positive) 1%positive) percentage
  then lit "text-yellow-400"
  else lit "text-red-400".

Definition getFreedomGradient (percentage : QArith_base.Q) : jsstring :=
  if QArith_base.Qle_bool (QArith_base.Qmake (BinNums.Zpos 70%positive) 1%positive) percentage
  then lit "from-green-400 to-blue-500"
  else if QArith_base.Qle_bool (QArith_base.Qmake (BinNums.Zpos 40%positive) 1%positive) percentage
  then lit "from-yellow-400 to-orange-500"
  else lit "from-red-400 to-red-600".

(* ================================================================== *)
(** ** The manual-only first revision *)

Module Part000.

(** Its five [useState] cells. *)
Record State := mkState {
  calendarData : jsstring;
  timePeriod : jsstring;
  analysis : option Analysis;
  loading : bool;
  error : JSValue
}.

Definition initialState : State :=
  {| calendarData := []; timePeriod := lit "this week"; analysis := None;
     loading := false; error := JSString [] |}.

Definition setCalendarData (v : jsstring) (s : State) : State :=
  {| calendarData := v; timePeriod := timePeriod s; analysis := analysis s;
     loading := loading s; error := error s |}.

Definition setAnalysis (v : option Analysis) (s : State) : State :=
  {| calendarData := calendarData s; timePeriod := timePeriod s; analysis := v;
     loading := loading s; error := error s |}.

Definition setLoading (v : bool) (s : State) : State :=
  {| calendarData := calendarData s; timePeriod := timePeriod s;
     analysis := analysis s; loading := v; error := error s |}.

Definition setError (v : JSValue) (s : State) : State :=
  {| calendarData := calendarData s; timePeriod := timePeriod s;
     analysis := analysis s; loading := loading s; error := v |}.

(** [analyzeCalendar] up to its [await]: the new state and the request
    issued, if any. *)
Definition analyzeCalendar_call (s : State) : State * option Request :=
  if negb (truthy (trim (calendarData s))) then
    (setError (JSString (lit "Please paste your calendar data first!")) s, None)
  else
    (setError (JSString []) (setLoading true s),
     Some (PostAnalyzeCalendar (calendarData s) (timePeriod s))).

Definition analyzeCalendar_resume (r : Outcome Analysis) (s : State) : State :=
  let s' :=
    match r with
    | Resolved d => setAnalysis (Some d) s
    | Rejected err =>
        setError (or_else (err_detail err)
                    (lit "Failed to analyze calendar. Please try again.")) s
    end in
  setLoading false s'.

Definition resetAnalysis (s : State) : State :=
  setError (JSString []) (setCalendarData [] (setAnalysis None s)).

(** What a render of the manual-only page returns: the form (selector,
    text area, error box, button) while no result is held, the results
    panel with its reset button otherwise. *)
Record View := mkView {
  controls : list Control;
  error_box : option JSValue;
  results : option Analysis
}.

Definition App (s : State) : View :=
  match analysis s with
  | None =>
      {| controls :=
           [TimePeriodSelect manual_select_options; CalendarTextarea;
            AnalyzeManualButton
              (loading s || negb (truthy (trim (calendarData s))))];
         error_box := if truthy_value (error s) then Some (error s) else None;
         results := None |}
  | Some a =>
      {| controls := [ResetButton]; error_box := None; results := Some a |}
  end.

Definition setTimePeriod (v : jsstring) (s : State) : State :=
  {| calendarData := calendarData s; timePeriod := v; analysis := analysis s;
     loading := loading s; error := error s |}.

(** The mounted page: its state and the requests awaiting a response
    and issued so far. *)
Record Page := mkPage {
  state : State;
  pending : list Request;
  sent : list Request
}.

Definition initialPage : Page :=
  {| state := initialState; pending := []; sent := [] |}.

Definition update (f : State -> State) (p : Page) : Page :=
  {| state := f (state p); pending := pending p; sent := sent p |}.

Inductive Event :=
| SelectTimePeriod (value : jsstring)
| TypeCalendarData (text : jsstring)
| ClickAnalyze
| ClickReset
| Respond (i : nat) (r : Outcome Analysis).

Definition is_enabled (pick : Control -> bool) (p : Page) : bool :=
  existsb pick (controls (App (state p))).

Definition allow (b : bool) (p : Page) : option Page :=
  if b then Some p else None.

(** Whether React can mount what a render returned. *)
Definition renders (v : View) : bool :=
  match error_box v with
  | Some e => valid_child e
  | None => true
  end.

(** One event on the page; [None] when it cannot happen: the control is
    not there or is disabled, the page was unmounted by a render that
    threw, or no such request is in flight. *)
Definition step (p : Page) (e : Event) : option Page :=
  if negb (renders (App (state p))) then None else
  match e with
  | SelectTimePeriod value =>
      allow (is_enabled (offers value) p) (update (setTimePeriod value) p)
  | TypeCalendarData text =>
      allow (is_enabled (fun c => match c with CalendarTextarea => true | _ => false end) p)
           (update (setCalendarData text) p)
  | ClickAnalyze =>
      allow (is_enabled (fun c => match c with AnalyzeManualButton d => negb d | _ => false end) p)
           (match analyzeCalendar_call (state p) with
            | (s', Some q) =>
                {| state := s'; pending := pending p ++ [q]; sent := sent p ++ [q] |}
            | (s', None) =>
                {| state := s'; pending := pending p; sent := sent p |}
            end)
  | ClickReset =>
      allow (is_enabled (fun c => match c with ResetButton => true | _ => false end) p)
           (update resetAnalysis p)
  | Respond i r =>
      match nth_error (pending p) i with
      | Some _ =>
          Some {| state := analyzeCalendar_resume r (state p);
                  pending := remove_nth i (pending p);
                  sent := sent p |}
      | None => None
      end
  end.

Fixpoint run (p : Page) (events : list Event) : option Page :=
  match events with
  | [] => Some p
  | e :: rest =>
      match step p e with
      | Some p' => run p' rest
      | None => None
      end
  end.

(** [getIndependenceColor] and [getIndependenceGradient]; the percentage
    is a finite number, taken as a rational. *)
Definition getIndependenceColor (percentage : QArith_base.Q) : jsstring :=
  if QArith_base.Qle_bool (QArith_base.Qmake (BinNums.Zpos 70%positive) 1%positive) percentage
  then lit "text-green-400"
  else if QArith_base.Qle_bool (QArith_base.Qmake (BinNums.Zpos 40%positive) 1%positive) percentage
  then lit "text-yellow-400"
  else lit "text-red-400".

Definition getIndependenceGradient (percentage : QArith_base.Q) : jsstring :=
  if QArith_base.Qle_bool (QArith_base.Qmake (BinNums.Zpos 70%positive) 1%positive) percentage
  then lit "from-green-400 to-green-600"
  else if QArith_base.Qle_bool (QArith_base.Qmake (BinNums.Zpos 40%positive) 1%positive) percentage
  then lit "from-yellow-400 to-orange-500"
  else lit "from-red-400 to-red-600".

End Part000.

(* ================================================================== *)
(** ** What the specification says, in its own words *)

(** The screen-selection rule of the specification: the manual-entry
    screen when the manual-mode flag is set, whatever the session; else
    the login screen when there is no session; else the dashboard. *)
Definition screen_selection_rule (manualMode : bool) (session : option User)
    : Screen :=
  if manualMode then ManualScreen
  else match session with
       | None => LoginScreen
       | Some _ => DashboardScreen
       end.

Definition is_some {A : Type} (x : option A) : bool :=
  match x with
  | Some _ => true
  | None => false
  end.

(** "Exactly one of {result present, error non-empty}". *)
Definition result_xor_error (s : State) : bool :=
  xorb (is_some (analysis s)) (truthy_value (error s)).

(** The documented spellings of the time-period enumeration. *)
Definition documented_time_periods : list jsstring :=
  [lit "today"; lit "this_week"; lit "this_month"; lit "recent_days"].

Definition documented (value : jsstring) : bool :=
  existsb (str_eqb value) documented_time_periods.

(** The query carries what [App.js] takes for a successful OAuth
    redirect: [auth=success] with a non-empty [token] and [user]. *)
Definition carries_session (q : Query) : bool :=
  opt_str_eqb (get q (lit "auth")) (lit "success")
  && truthy_opt (get q (lit "token")) && truthy_opt (get q (lit "user")).

(** An initial load followed by events. *)
Definition session (v : Variant) (st : Storage) (q : Query)
    (events : list Event) : option World :=
  match load v st q with
  | Some w => run v w events
  | None => None
  end.

(* ------------------------------------------------------------------ *)
(** *** Sample data *)

Definition alice : User :=
  {| id := lit "u1"; name := Some (lit "A"); email := lit "a@x.com" |}.

Definition alice_storage : Storage :=
  {| access_token := Some (lit "t1"); user_data := Some (Serialized alice) |}.

Definition token_only_storage : Storage :=
  {| access_token := Some (lit "t1"); user_data := None |}.

Definition some_analysis : Analysis :=
  {| independence_percentage := 62;
     witty_message := lit "Mostly free.";
     meeting_stats :=
       {| total_meetings := 3; total_hours := lit "3.5";
          avg_meeting_length := lit "1.2"; longest_meeting_free_block := lit "4" |};
     recommendations := [lit "Decline one meeting."];
     detailed_analysis := lit "Three meetings this week." |}.

Definition server_error : AxiosError :=
  {| response := Some {| status := 500; data := None |} |}.

Definition unauthorized : AxiosError :=
  {| response := Some {| status := 401; data := None |} |}.

Definition not_found_with_detail : AxiosError :=
  {| response :=
       Some {| status := 404;
               data :=
                 Some {| detail := Some (JSString (lit "No events found")) |} |} |}.

(** A failure whose body carries, as its detail, the very text the
    automatic analysis shows on a 401. *)
Definition detail_is_access_required : AxiosError :=
  {| response :=
       Some {| status := 403;
               data :=
                 Some {| detail :=
                           Some (JSString msg_calendar_access_required) |} |} |}.

Definition empty_detail : AxiosError :=
  {| response :=
       Some {| status := 500;
               data := Some {| detail := Some (JSString []) |} |} |}.

(** A validation failure as FastAPI reports it: the detail is a list of
    objects. *)
Definition unprocessable : AxiosError :=
  {| response :=
       Some {| status := 422;
               data :=
                 Some {| detail :=
                           Some (JSArray
                                   [JSObject
                                      [(lit "msg",
                                        JSString (lit "field required"))]]) |} |} |}.

Definition error_query : Query := [(lit "auth", lit "error")].

Definition success_query : Query :=
  [(lit "auth", lit "success"); (lit "token", lit "t2");
   (lit "user", lit "b@y.com"); (lit "name", lit "B")].

Definition blank_text : jsstring := [32; 9; 10; 160]%N.

(** The dashboard as an initial load with Alice's session shows it. *)
Definition alice_dashboard : World :=
  update (setUser (Some alice)) (mount alice_storage []).

Definition typed (text : jsstring) : World :=
  update (setCalendarData text) (mount emptyStorage []).

(** Two analyses in flight on the dashboard: the first is started, a
    failed authorization request resets [loading] and so re-enables the
    button, the second is started; then the first succeeds and the second
    fails. *)
Definition overlapping_analyses : list Event :=
  [ClickAnalyzeAuto;
   ClickAuthorize;
   Respond 1 (UrlReply (Rejected server_error));
   ClickAnalyzeAuto;
   Respond 0 (AnalysisReply (Resolved some_analysis));
   Respond 0 (AnalysisReply (Rejected server_error))].

(** On the manual-entry screen: choose "This Week", paste a schedule,
    press the button. *)
Definition manual_this_week : list Event :=
  [ClickManualMode;
   SelectTimePeriod (lit "this week");
   TypeCalendarData (lit "9-10 standup");
   ClickAnalyzeManual].

(* ------------------------------------------------------------------ *)
(** *** Predicates on worlds and requests *)

(** The values either selector offers, and the initial value. *)
Definition selectable_time_periods : list jsstring :=
  dashboard_select_options ++ manual_select_options.

Definition selectable (value : jsstring) : bool :=
  existsb (str_eqb value) selectable_time_periods.

(** An analysis request carries pasted text that is not blank, an
    automatic one a bearer token read from storage; both carry a time
    period some selector offers. *)
Definition well_formed (r : Request) : bool :=
  match r with
  | PostAnalyzeCalendar text period => negb (blank text) && selectable period
  | PostAnalyzeCalendarAuto period bearer => is_some bearer && selectable period
  | PostAuthGoogle _ | GetAuthGoogleCalendar => true
  end.

(** The events of the user other than an error reported by the sign-in
    widget: no response, and nothing that sets an error message. *)
Definition quiet (e : Event) : bool :=
  match e with
  | Respond _ _ | GoogleError => false
  | _ => true
  end.

(** The profile storage holds for restoration: the decoded profile
    text, when it comes with a token that is not the empty string. *)
Definition stored_session (st : Storage) : option User :=
  match access_token st, user_data st with
  | Some t, Some (Serialized u) => if truthy t then Some u else None
  | _, _ => None
  end.

(** Storage holds a non-empty token next to a non-empty profile text
    that [JSON.parse] rejects: the one case in which the effect reaches
    [JSON.parse] and it throws. *)
Definition corrupt (st : Storage) : bool :=
  match access_token st, user_data st with
  | Some t, Some Malformed => truthy t
  | _, _ => false
  end.

(** The session held in the state is the profile held in storage, next
    to a token. *)
Definition session_stored (w : World) : Prop :=
  forall u, user (state w) = Some u ->
    user_data (localStorage w) = Some (Serialized u)
    /\ is_some (access_token (localStorage w)) = true.

(** What every world of a session satisfies: the session is the stored
    one, every request issued so far is well formed, and the selected
    time period is one a selector offers. *)
Definition invariant (w : World) : Prop :=
  session_stored w
  /\ forallb well_formed (sent w) = true
  /\ selectable (timePeriod (state w)) = true.

(** The manual-only page never holds a result and an error message at
    once, has at most one request in flight, and shows the spinner
    exactly while one is. *)
Definition settled (p : Part000.Page) : Prop :=
  Part000.loading (Part000.state p) = false /\ Part000.pending p = [].

Definition waiting (p : Part000.Page) : Prop :=
  Part000.loading (Part000.state p) = true
  /\ Part000.analysis (Part000.state p) = None
  /\ Part000.error (Part000.state p) = JSString []
  /\ exists q, Part000.pending p = [q].

(* ================================================================== *)
(** ** Strings: [trim] against "whitespace-only" *)

Lemma str_eqb_refl (a : jsstring) : str_eqb a a = true.
Proof.
  induction a as [|x a IH]; simpl; [reflexivity|].
  now rewrite N.eqb_refl, IH.
Qed.

Lemma str_eqb_eq (a b : jsstring) : str_eqb a b = true <-> a = b.
Proof.
  split.
  - revert b; induction a as [|x a IH]; intros [|y b]; simpl; try discriminate;
      [reflexivity|].
    intros H. apply andb_true_iff in H as [Hx Hr].
    apply N.eqb_eq in Hx. now rewrite Hx, (IH b Hr).
  - intros ->. apply str_eqb_refl.
Qed.

Lemma trimStart_nil (s : jsstring) : trimStart s = [] <-> blank s = true.
Proof.
  unfold blank.
  induction s as [|c r IH]; simpl.
  - tauto.
  - destruct (is_white c); simpl.
    + exact IH.
    + split; discriminate.
Qed.

Lemma blank_trimStart (s : jsstring) : blank (trimStart s) = blank s.
Proof.
  unfold blank.
  induction s as [|c r IH]; simpl; [reflexivity|].
  destruct (is_white c) eqn:E; simpl.
  - exact IH.
  - now rewrite E.
Qed.

Lemma blank_app (a b : jsstring) : blank (a ++ b) = blank a && blank b.
Proof. apply forallb_app. Qed.

Lemma blank_rev (s : jsstring) : blank (rev s) = blank s.
Proof.
  induction s as [|c r IH]; simpl; [reflexivity|].
  rewrite blank_app, IH. unfold blank at 2 3. simpl.
  rewrite andb_true_r. apply andb_comm.
Qed.

Lemma rev_nil_iff {A : Type} (l : list A) : rev l = [] <-> l = [].
Proof.
  split; intros H.
  - rewrite <- (rev_involutive l), H. reflexivity.
  - now subst.
Qed.

Lemma trim_nil (s : jsstring) : trim s = [] <-> blank s = true.
Proof.
  unfold trim, trimEnd.
  split; intros H.
  - apply rev_nil_iff, trimStart_nil in H.
    now rewrite blank_rev, blank_trimStart in H.
  - apply rev_nil_iff, trimStart_nil.
    now rewrite blank_rev, blank_trimStart.
Qed.

(** [!text.trim()] is the spec's "empty or whitespace-only". *)
Lemma not_trim_is_blank (s : jsstring) : negb (truthy (trim s)) = blank s.
Proof.
  destruct (blank s) eqn:B.
  - apply trim_nil in B. now rewrite B.
  - destruct (trim s) eqn:T; [|reflexivity].
    apply trim_nil in T. congruence.
Qed.

(** What [trim] keeps starts and ends with a character that is not
    white space. *)
Lemma trimStart_head (s r : jsstring) (c : N) :
  trimStart s = c :: r -> is_white c = false.
Proof.
  induction s as [|x s IH]; simpl; [discriminate|].
  destruct (is_white x) eqn:E; [exact IH|].
  intros H. injection H as -> _. exact E.
Qed.

Lemma trimStart_suffix (s : jsstring) :
  exists p, s = p ++ trimStart s /\ blank p = true.
Proof.
  induction s as [|c r [p [Hp Bp]]]; simpl.
  - exists []. split; reflexivity.
  - destruct (is_white c) eqn:E.
    + exists (c :: p). split; [simpl; now rewrite <- Hp|].
      unfold blank in *. simpl. now rewrite E.
    + exists []. split; reflexivity.
Qed.

(* ================================================================== *)
(** ** Manual analysis: the empty-text guard *)

(** C1. In every state whose pasted text is empty or consists of white
    space only, [analyzeCalendarManual] issues no request, sets the
    (non-empty) validation message, and leaves [loading], the result and
    the session as they were; in every state whose text has a character
    that is not white space it issues the analysis request with that text
    and the selected period.  The same holds of [analyzeCalendar] in the
    manual-only revision. *)
Theorem manual_analyze_blank_text_guard
    (v : Variant) (w : World) (s : Part000.State) :
  (blank (calendarData (state w)) = true ->
     sent (analyzeCalendarManual_call v w) = sent w
     /\ pending (analyzeCalendarManual_call v w) = pending w
     /\ error (state (analyzeCalendarManual_call v w))
        = JSString (msg_paste_first v)
     /\ truthy (msg_paste_first v) = true
     /\ loading (state (analyzeCalendarManual_call v w)) = loading (state w)
     /\ analysis (state (analyzeCalendarManual_call v w)) = analysis (state w)
     /\ user (state (analyzeCalendarManual_call v w)) = user (state w))
  /\ (blank (calendarData (state w)) = false ->
        sent (analyzeCalendarManual_call v w)
        = sent w ++ [PostAnalyzeCalendar (calendarData (state w))
                       (timePeriod (state w))]
        /\ pending (analyzeCalendarManual_call v w)
           = pending w ++ [PostAnalyzeCalendar (calendarData (state w))
                             (timePeriod (state w))])
  /\ (blank (Part000.calendarData s) = true ->
        snd (Part000.analyzeCalendar_call s) = None
        /\ truthy_value (Part000.error (fst (Part000.analyzeCalendar_call s)))
           = true
        /\ Part000.loading (fst (Part000.analyzeCalendar_call s))
           = Part000.loading s
        /\ Part000.analysis (fst (Part000.analyzeCalendar_call s))
           = Part000.analysis s)
  /\ (blank (Part000.calendarData s) = false ->
        snd (Part000.analyzeCalendar_call s)
        = Some (PostAnalyzeCalendar (Part000.calendarData s)
                  (Part000.timePeriod s))).
Proof.
  unfold analyzeCalendarManual_call, Part000.analyzeCalendar_call.
  rewrite !not_trim_is_blank.
  split; [|split; [|split]]; intros B; rewrite B; simpl; repeat split.
  destruct v; reflexivity.
Qed.

Lemma manual_analyze_blank_text_guard_witness :
  sent (analyzeCalendarManual_call AppJs (typed blank_text)) = []
  /\ error (state (analyzeCalendarManual_call AppJs (typed blank_text)))
     = JSString (lit "Please paste your schedule data first!")
  /\ sent (analyzeCalendarManual_call AppJs (typed (lit " 9-10 standup ")))
     = [PostAnalyzeCalendar (lit " 9-10 standup ") (lit "this_week")]
  /\ snd (Part000.analyzeCalendar_call
            (Part000.setCalendarData blank_text Part000.initialState)) = None
  /\ snd (Part000.analyzeCalendar_call
            (Part000.setCalendarData (lit "x") Part000.initialState))
     = Some (PostAnalyzeCalendar (lit "x") (lit "this week")).
Proof.
  destruct (manual_analyze_blank_text_guard AppJs (typed blank_text)
              (Part000.setCalendarData blank_text Part000.initialState))
    as (Hblank & _ & Hblank0 & _).
  destruct (manual_analyze_blank_text_guard AppJs
              (typed (lit " 9-10 standup "))
              (Part000.setCalendarData (lit "x") Part000.initialState))
    as (_ & Htext & _ & Htext0).
  destruct (Hblank eq_refl) as (Hsent & _ & Herr & _).
  split; [exact Hsent|]. split; [exact Herr|].
  split; [exact (proj1 (Htext eq_refl))|].
  split; [exact (proj1 (Hblank0 eq_refl))|].
  exact (Htext0 eq_refl).
Defined.

(* ================================================================== *)
(** ** Screen selection *)

Lemma App_screen (s : State) :
  screen (App s) = screen_selection_rule (showManual s) (user s).
Proof.
  unfold App, screen_selection_rule.
  destruct (showManual s), (user s), (analysis s); reflexivity.
Qed.

(** C2. In every state, reachable or not, the screen a render shows is
    the one the specification's rule gives for the manual-mode flag and
    the session alone: the manual-entry screen when the flag is set,
    else the login screen when the session is [null], else the
    dashboard; and of the three screens exactly one is visible. *)
Theorem screen_is_function_of_flag_and_session (s : State) :
  screen (App s) = screen_selection_rule (showManual s) (user s)
  /\ visible s ManualScreen = showManual s
  /\ visible s LoginScreen = negb (showManual s) && negb (is_some (user s))
  /\ visible s DashboardScreen = negb (showManual s) && is_some (user s)
  /\ List.length
       (filter (visible s) [ManualScreen; LoginScreen; DashboardScreen]) = 1.
Proof.
  unfold visible. rewrite App_screen. unfold screen_selection_rule.
  destruct (showManual s), (user s); simpl; repeat split.
Qed.

Lemma session_reachable (v : Variant) (st : Storage) (q : Query)
    (events : list Event) (w : World) :
  session v st q events = Some w -> reachable v w.
Proof.
  unfold session, reachable. intros H.
  destruct (load v st q) as [w0|] eqn:L; [|discriminate H].
  exists st, q, w0, events. split; [exact L | exact H].
Qed.

(** In particular in every world a session can reach. *)
Lemma reachable_screen (v : Variant) (w : World) :
  reachable v w ->
  screen (App (state w))
  = screen_selection_rule (showManual (state w)) (user (state w)).
Proof. intros _. apply App_screen. Qed.

(* ================================================================== *)
(** ** Reset and logout *)

(** C7. In every state, [resetAnalysis] clears the result, the pasted
    text and the error message and leaves the session and the
    manual-mode flag (and everything else) as they were; the manual-only
    revision's [resetAnalysis] clears the same three cells. *)
Theorem reset_clears_result_text_error (w : World) (s : Part000.State) :
  analysis (state (resetAnalysis w)) = None
  /\ calendarData (state (resetAnalysis w)) = []
  /\ error (state (resetAnalysis w)) = JSString []
  /\ user (state (resetAnalysis w)) = user (state w)
  /\ showManual (state (resetAnalysis w)) = showManual (state w)
  /\ timePeriod (state (resetAnalysis w)) = timePeriod (state w)
  /\ loading (state (resetAnalysis w)) = loading (state w)
  /\ localStorage (resetAnalysis w) = localStorage w
  /\ sent (resetAnalysis w) = sent w
  /\ Part000.analysis (Part000.resetAnalysis s) = None
  /\ Part000.calendarData (Part000.resetAnalysis s) = []
  /\ Part000.error (Part000.resetAnalysis s) = JSString []
  /\ Part000.timePeriod (Part000.resetAnalysis s) = Part000.timePeriod s
  /\ Part000.loading (Part000.resetAnalysis s) = Part000.loading s.
Proof.
  repeat split.
Qed.

(** C3, as amended. In every state [logout] clears the session and the
    manual-mode flag, removes the token slot and the profile slot from
    storage, and clears the result, the pasted text and the error, so
    that the login screen is shown; the selected time period and the
    [loading] flag are left as they were, so the state is the first-load
    state up to those two cells. *)
Theorem logout_clears_session_and_storage (w : World) :
  user (state (logout w)) = None
  /\ showManual (state (logout w)) = false
  /\ access_token (localStorage (logout w)) = None
  /\ user_data (localStorage (logout w)) = None
  /\ analysis (state (logout w)) = None
  /\ calendarData (state (logout w)) = []
  /\ error (state (logout w)) = JSString []
  /\ timePeriod (state (logout w)) = timePeriod (state w)
  /\ loading (state (logout w)) = loading (state w)
  /\ state (logout w)
     = setLoading (loading (state w))
         (setTimePeriod (timePeriod (state w)) initialState)
  /\ localStorage (logout w) = emptyStorage
  /\ screen (App (state (logout w))) = LoginScreen.
Proof.
  repeat split.
Qed.

(** C3, as stated, fails: on the dashboard reached from a stored
    session, choosing "Today" and then logging out leaves the time
    period at ["today"], not at its initial value. *)
Lemma logout_keeps_time_period :
  exists w,
    session AppJs alice_storage []
      [SelectTimePeriod (lit "today"); ClickLogout] = Some w
    /\ timePeriod (state w) = lit "today"
    /\ timePeriod initialState = lit "this_week"
    /\ state w <> initialState.
Proof.
  eexists. split; [vm_compute; reflexivity|].
  split; [reflexivity|]. split; [reflexivity|].
  intros H. apply (f_equal timePeriod) in H. vm_compute in H. discriminate H.
Qed.

(* ================================================================== *)
(** ** Completion of an analysis *)

Lemma or_else_truthy (x : option JSValue) (d : jsstring) :
  truthy d = true -> truthy_value (or_else x d) = true.
Proof.
  intros Hd. destruct x as [v|]; simpl; [|exact Hd].
  destruct (truthy_value v) eqn:E; [exact E | exact Hd].
Qed.

Lemma or_else_detail (x : option JSValue) (d : jsstring) (v : JSValue) :
  x = Some v -> truthy_value v = true -> or_else x d = v.
Proof.
  intros -> Hv. simpl. now rewrite Hv.
Qed.

Lemma or_else_fallback (x : option JSValue) (d : jsstring) :
  x = None \/ (exists v, x = Some v /\ truthy_value v = false) ->
  or_else x d = JSString d.
Proof.
  intros [-> | (v & -> & Hv)]; simpl; [reflexivity|]. now rewrite Hv.
Qed.

(** An event is handled only on a page that is mounted: not navigated
    away, not reloading, and with a render that did not throw. *)
Lemma step_mounted (v : Variant) (w w' : World) (e : Event) :
  step v w e = Some w' ->
  href w = None /\ reloading w = false /\ renders (App (state w)) = true.
Proof.
  unfold step. intros S.
  destruct (href w); [discriminate S|].
  destruct (reloading w); [discriminate S|].
  destruct (renders (App (state w))); [|discriminate S].
  repeat split.
Qed.

Ltac mounted S w Hh Hr Hv :=
  unfold step in S;
  destruct (href w) eqn:Hh; [discriminate S|];
  destruct (reloading w) eqn:Hr; [discriminate S|];
  destruct (renders (App (state w))) eqn:Hv; [|discriminate S].

(** A page whose error is the empty string has nothing in its error box
    and so renders. *)
Lemma renders_no_error (s : State) :
  error s = JSString [] -> renders (App s) = true.
Proof.
  unfold renders, App, show_error. intros E. rewrite E. simpl.
  destruct (showManual s), (user s), (analysis s); reflexivity.
Qed.

(** The page offers the two analyze buttons only while no result is
    held. *)
Lemma analyze_offered_without_result (v : Variant) (w w' : World) (e : Event) :
  e = ClickAnalyzeAuto \/ e = ClickAnalyzeManual ->
  step v w e = Some w' -> analysis (state w) = None.
Proof.
  intros He H. destruct (analysis (state w)) eqn:A; [|reflexivity].
  exfalso. mounted H w Hh Hr Hv. unfold is_enabled, App in H. rewrite A in H.
  destruct He as [-> | ->];
    destruct (showManual (state w)), (user (state w)); discriminate H.
Qed.

(** The manual analyze button is enabled only over text that is not
    blank. *)
Lemma manual_button_enabled (w : World) :
  is_enabled
    (fun c => match c with AnalyzeManualButton d => negb d | _ => false end) w
  = true ->
  blank (calendarData (state w)) = false
  /\ loading (state w) = false
  /\ analysis (state w) = None.
Proof.
  rewrite <- not_trim_is_blank. unfold is_enabled, App. intros En.
  destruct (showManual (state w)), (user (state w)), (analysis (state w));
    simpl in En; try discriminate En;
    destruct (loading (state w)); simpl in En; try discriminate En;
    destruct (negb (truthy (trim (calendarData (state w)))));
    try discriminate En; repeat split.
Qed.

(** Every completion of an analysis ends with [loading] false. *)
Lemma analyze_resume_not_loading (v : Variant) (r : Outcome Analysis) (w : World) :
  loading (state (analyzeCalendarAuto_resume r w)) = false
  /\ loading (state (analyzeCalendarManual_resume v r w)) = false.
Proof. split; reflexivity. Qed.

(** The completion of an analysis, arriving in a state that holds no
    result and an empty error, leaves [loading] false and either a
    result or a truthy error, not both. *)
Lemma analyze_resume_xor (v : Variant) (r : Outcome Analysis) (w : World) :
  analysis (state w) = None -> error (state w) = JSString [] ->
  result_xor_error (state (analyzeCalendarAuto_resume r w)) = true
  /\ result_xor_error (state (analyzeCalendarManual_resume v r w)) = true.
Proof.
  intros A E.
  unfold result_xor_error, analyzeCalendarAuto_resume,
    analyzeCalendarManual_resume.
  destruct r as [d|err]; simpl.
  - rewrite E. split; reflexivity.
  - split.
    + destruct (status_is err 401); simpl; rewrite A; simpl;
        [reflexivity | apply or_else_truthy; reflexivity].
    + rewrite A. simpl. apply or_else_truthy. destruct v; reflexivity.
Qed.

(** An analysis invoked in a state that holds no result and completed
    before anything else happens ends with [loading] false and with
    either a result or a truthy error, not both. *)
Lemma analyze_then_complete (v : Variant) (w : World) (r : Outcome Analysis) :
  analysis (state w) = None ->
  (loading (state (analyzeCalendarAuto_resume r (analyzeCalendarAuto_call w)))
   = false
   /\ result_xor_error
        (state (analyzeCalendarAuto_resume r (analyzeCalendarAuto_call w)))
      = true)
  /\ (blank (calendarData (state w)) = false ->
      loading
        (state (analyzeCalendarManual_resume v r (analyzeCalendarManual_call v w)))
      = false
      /\ result_xor_error
           (state (analyzeCalendarManual_resume v r
                     (analyzeCalendarManual_call v w)))
         = true).
Proof.
  intros A. split; [|intros B]; (split; [reflexivity|]).
  - apply (analyze_resume_xor v r (analyzeCalendarAuto_call w)); [exact A|].
    reflexivity.
  - apply (analyze_resume_xor v r (analyzeCalendarManual_call v w));
      unfold analyzeCalendarManual_call; rewrite not_trim_is_blank, B;
      [exact A | reflexivity].
Qed.

Lemma nth_error_last {A : Type} (l : list A) (x : A) :
  nth_error (l ++ [x]) (List.length l) = Some x.
Proof.
  induction l as [|y l IH]; simpl; [reflexivity | exact IH].
Qed.

(** A user event other than the sign-in widget's error keeps "no
    result, empty error". *)
Lemma quiet_step (v : Variant) (w w' : World) (e : Event) :
  quiet e = true ->
  step v w e = Some w' ->
  analysis (state w) = None /\ error (state w) = JSString [] ->
  analysis (state w') = None /\ error (state w') = JSString [].
Proof.
  intros Q S [A E]. mounted S w Hh Hr Hv.
  destruct e; try discriminate Q;
    match type of S with
    | when ?b _ = Some _ =>
        destruct b eqn:En; [simpl in S; injection S as <- | discriminate S]
    end;
    try (split; [exact A | exact E]);
    try (split; [exact A | reflexivity]);
    try (split; reflexivity).
  apply manual_button_enabled in En as (B & _ & _).
  unfold analyzeCalendarManual_call. rewrite not_trim_is_blank, B.
  split; [exact A | reflexivity].
Qed.

Lemma quiet_run (v : Variant) (events : list Event) (w w' : World) :
  forallb quiet events = true ->
  run v w events = Some w' ->
  analysis (state w) = None /\ error (state w) = JSString [] ->
  analysis (state w') = None /\ error (state w') = JSString [].
Proof.
  revert w. induction events as [|e rest IH]; simpl; intros w Q R H.
  - injection R as <-. exact H.
  - apply andb_true_iff in Q as [Qe Qr].
    destruct (step v w e) as [w1|] eqn:S; [|discriminate R].
    exact (IH w1 Qr R (quiet_step v w w1 e Qe S H)).
Qed.

(** C4, as amended. When an analysis, automatic or manual, is started
    from the page and its request completes, with success or with
    failure, before any other response and before any error of the
    sign-in widget is handled, whatever else the user does in between,
    then [loading] is false and exactly one of {result present, error
    message non-empty} holds. *)
Theorem analyze_completes_with_result_xor_error
    (v : Variant) (w w1 w2 w3 : World) (e : Event) (events : list Event)
    (r : Outcome Analysis) :
  e = ClickAnalyzeAuto \/ e = ClickAnalyzeManual ->
  step v w e = Some w1 ->
  forallb quiet events = true ->
  run v w1 events = Some w2 ->
  step v w2 (Respond (List.length (pending w)) (AnalysisReply r)) = Some w3 ->
  loading (state w3) = false /\ result_xor_error (state w3) = true.
Proof.
  intros He S1 Q R S3.
  pose proof (analyze_offered_without_result v w w1 e He S1) as A.
  assert (H1 : analysis (state w1) = None /\ error (state w1) = JSString []).
  { mounted S1 w Hh Hr Hv. destruct He as [-> | ->].
    - destruct (is_enabled _ w); [|discriminate S1].
      injection S1 as <-. split; [exact A | reflexivity].
    - destruct (is_enabled _ w) eqn:En; [|discriminate S1].
      injection S1 as <-.
      apply manual_button_enabled in En as (B & _ & _).
      unfold analyzeCalendarManual_call. rewrite not_trim_is_blank, B.
      split; [exact A | reflexivity]. }
  destruct (quiet_run v events w1 w2 Q R H1) as [A2 E2].
  mounted S3 w2 Hh Hr Hv.
  destruct (nth_error (pending w2) (List.length (pending w))) as [q|];
    [|discriminate S3].
  destruct (analyze_resume_xor v r (settle (List.length (pending w)) w2) A2 E2)
    as [Xa Xm].
  destruct q; simpl in S3; try discriminate S3; injection S3 as <-;
    (split; [reflexivity | assumption]).
Qed.

Lemma analyze_completes_with_result_xor_error_witness :
  exists w3,
    step AppJs
      (update (setTimePeriod (lit "today"))
         (update (setCalendarData (lit "x"))
            (analyzeCalendarAuto_call alice_dashboard)))
      (Respond 0 (AnalysisReply (Rejected unauthorized))) = Some w3
    /\ loading (state w3) = false
    /\ result_xor_error (state w3) = true.
Proof.
  eexists. split; [reflexivity|].
  apply (analyze_completes_with_result_xor_error AppJs alice_dashboard
           (analyzeCalendarAuto_call alice_dashboard)
           (update (setTimePeriod (lit "today"))
              (update (setCalendarData (lit "x"))
                 (analyzeCalendarAuto_call alice_dashboard)))
           _ ClickAnalyzeAuto
           [TypeCalendarData (lit "x"); SelectTimePeriod (lit "today")]
           (Rejected unauthorized)).
  - left. reflexivity.
  - reflexivity.
  - reflexivity.
  - reflexivity.
  - reflexivity.
Defined.

(** C4, as stated, fails: a failed analysis leaves an earlier result in
    place.  With two analyses in flight on the dashboard, the first
    succeeding and the second failing, the state ends up holding both a
    result and a non-empty error message. *)
Lemma failed_analysis_keeps_earlier_result :
  exists w,
    session AppJs alice_storage [] overlapping_analyses = Some w
    /\ pending w = []
    /\ loading (state w) = false
    /\ analysis (state w) = Some some_analysis
    /\ error (state w) = JSString msg_auto_failed
    /\ truthy_value (error (state w)) = true
    /\ result_xor_error (state w) = false.
Proof.
  eexists. split; [vm_compute; reflexivity|].
  repeat split.
Qed.

(** An error of the sign-in widget between the click and the reply has
    the same effect: after a logout the widget reports an error, then
    the analysis succeeds, and the state holds both. *)
Lemma widget_error_before_result :
  exists w,
    session AppJs alice_storage []
      [ClickAnalyzeAuto; ClickLogout; GoogleError;
       Respond 0 (AnalysisReply (Resolved some_analysis))] = Some w
    /\ analysis (state w) = Some some_analysis
    /\ error (state w) = JSString msg_google_login_failed
    /\ result_xor_error (state w) = false.
Proof.
  eexists. split; [vm_compute; reflexivity|].
  repeat split.
Qed.

(* ================================================================== *)
(** ** Failure messages *)

Lemma status_is_true (e : AxiosError) (n : N) :
  status_is e n = true <-> err_status e = Some n.
Proof.
  unfold status_is. destruct (err_status e) as [s|].
  - rewrite N.eqb_eq. split; congruence.
  - split; discriminate.
Qed.

Lemma status_is_false (e : AxiosError) (n : N) :
  err_status e <> Some n -> status_is e n = false.
Proof.
  intros H. destruct (status_is e n) eqn:E; [|reflexivity].
  apply status_is_true in E. contradiction.
Qed.

Lemma access_required_is_no_manual_message (v : Variant) :
  msg_manual_failed v <> msg_calendar_access_required
  /\ msg_paste_first v <> msg_calendar_access_required.
Proof. destruct v; split; discriminate. Qed.

(** C5. For every failure of the automatic analysis: when the response
    status is 401 the error is the authorization-required message;
    otherwise it is the backend's detail when the response carries one
    (a truthy value, which [||] passes through whatever it is), else
    the generic fallback.  Manual analysis has no 401 case: for every
    failure, whatever its status, its error is the backend's detail when
    present, else its own fallback; neither that fallback nor its
    validation message is the authorization-required text, so manual
    analysis produces that text in no branch of its own, and shows it
    only when the backend's detail is that very text. *)
Theorem analyze_failure_messages (v : Variant) (e : AxiosError) (w : World) :
  (err_status e = Some 401%N ->
     error (state (analyzeCalendarAuto_resume (Rejected e) w))
     = JSString msg_calendar_access_required)
  /\ (err_status e <> Some 401%N ->
      forall d, err_detail e = Some d -> truthy_value d = true ->
        error (state (analyzeCalendarAuto_resume (Rejected e) w)) = d)
  /\ (err_status e <> Some 401%N ->
      err_detail e = None
      \/ (exists d, err_detail e = Some d /\ truthy_value d = false) ->
        error (state (analyzeCalendarAuto_resume (Rejected e) w))
        = JSString msg_auto_failed)
  /\ (forall d, err_detail e = Some d -> truthy_value d = true ->
        error (state (analyzeCalendarManual_resume v (Rejected e) w)) = d)
  /\ (err_detail e = None
      \/ (exists d, err_detail e = Some d /\ truthy_value d = false) ->
        error (state (analyzeCalendarManual_resume v (Rejected e) w))
        = JSString (msg_manual_failed v))
  /\ (error (state (analyzeCalendarManual_resume v (Rejected e) w))
      = JSString msg_calendar_access_required ->
      err_detail e = Some (JSString msg_calendar_access_required))
  /\ msg_manual_failed v <> msg_calendar_access_required
  /\ msg_paste_first v <> msg_calendar_access_required.
Proof.
  unfold analyzeCalendarAuto_resume, analyzeCalendarManual_resume.
  split; [|split; [|split; [|split; [|split; [|split]]]]].
  - intros H. apply status_is_true in H. rewrite H. reflexivity.
  - intros H d Hd Ht. rewrite (status_is_false _ _ H). simpl.
    now apply or_else_detail.
  - intros H Hd. rewrite (status_is_false _ _ H). simpl.
    now apply or_else_fallback.
  - intros d Hd Ht. simpl. now apply or_else_detail.
  - intros Hd. simpl. now apply or_else_fallback.
  - simpl. intros H. unfold or_else in H.
    destruct (err_detail e) as [d|] eqn:D.
    + destruct (truthy_value d).
      * now rewrite H.
      * injection H as H.
        now apply access_required_is_no_manual_message in H.
    + injection H as H.
      now apply access_required_is_no_manual_message in H.
  - apply access_required_is_no_manual_message.
Qed.

Lemma analyze_failure_messages_witness :
  error (state (analyzeCalendarAuto_resume (Rejected unauthorized)
                  (mount alice_storage [])))
  = JSString msg_calendar_access_required
  /\ error (state (analyzeCalendarAuto_resume (Rejected not_found_with_detail)
                     (mount alice_storage [])))
     = JSString (lit "No events found")
  /\ error (state (analyzeCalendarAuto_resume (Rejected server_error)
                     (mount alice_storage [])))
     = JSString msg_auto_failed
  /\ error (state (analyzeCalendarAuto_resume (Rejected empty_detail)
                     (mount alice_storage [])))
     = JSString msg_auto_failed
  /\ error (state (analyzeCalendarManual_resume AppJs
                     (Rejected unprocessable) (typed (lit "x"))))
     = JSArray [JSObject [(lit "msg", JSString (lit "field required"))]]
  /\ error (state (analyzeCalendarManual_resume AppJs (Rejected unauthorized)
                     (typed (lit "x"))))
     = JSString (msg_manual_failed AppJs)
  /\ err_detail detail_is_access_required
     = Some (JSString msg_calendar_access_required).
Proof.
  split; [|split; [|split; [|split; [|split; [|split]]]]].
  - destruct (analyze_failure_messages AppJs unauthorized
                (mount alice_storage [])) as (H & _).
    exact (H eq_refl).
  - destruct (analyze_failure_messages AppJs not_found_with_detail
                (mount alice_storage [])) as (_ & H & _).
    apply H; [discriminate | reflexivity | reflexivity].
  - destruct (analyze_failure_messages AppJs server_error
                (mount alice_storage [])) as (_ & _ & H & _).
    apply H; [discriminate | left; reflexivity].
  - destruct (analyze_failure_messages AppJs empty_detail
                (mount alice_storage [])) as (_ & _ & H & _).
    apply H; [discriminate | right; eexists; split; reflexivity].
  - destruct (analyze_failure_messages AppJs unprocessable
                (typed (lit "x"))) as (_ & _ & _ & H & _).
    apply H; reflexivity.
  - destruct (analyze_failure_messages AppJs unauthorized
                (typed (lit "x"))) as (_ & _ & _ & _ & H & _).
    apply H. left. reflexivity.
  - destruct (analyze_failure_messages AppJs detail_is_access_required
                (typed (lit "x"))) as (_ & _ & _ & _ & _ & H & _).
    apply H. reflexivity.
Defined.

(* ================================================================== *)
(** ** Time-period spellings *)

Lemma dashboard_selector_documented :
  forallb documented dashboard_select_options = true.
Proof. reflexivity. Qed.

(** Whatever is chosen in the dashboard's selector is a documented
    spelling. *)
Lemma dashboard_selection_documented (v : Variant) (w w' : World)
    (value : jsstring) :
  screen (App (state w)) = DashboardScreen ->
  step v w (SelectTimePeriod value) = Some w' ->
  documented value = true /\ timePeriod (state w') = value.
Proof.
  intros Hs H. mounted H w Hh Hr Hv.
  destruct (is_enabled (offers value) w) eqn:En; [|discriminate H].
  injection H as <-. split; [|reflexivity].
  unfold is_enabled in En. unfold App in Hs, En.
  destruct (showManual (state w)).
  - destruct (analysis (state w)); discriminate Hs.
  - destruct (user (state w)); [|discriminate Hs].
    destruct (analysis (state w)); simpl in En; [discriminate En|].
    rewrite orb_false_r in En. exact En.
Qed.

(** C6 does not hold of the code.  Every value of the dashboard selector
    and the initial value are documented spellings, but the selector of
    the manual-entry screen offers ["this week"], ["this month"] and
    ["recent days"]: choosing "This Week" there and analysing sends
    [time_period = "this week"], which is none of the documented
    spellings. *)
Theorem manual_selector_sends_undocumented_spelling :
  (exists w,
     session AppJs emptyStorage [] manual_this_week = Some w
     /\ sent w = [PostAnalyzeCalendar (lit "9-10 standup") (lit "this week")])
  /\ documented (lit "this week") = false
  /\ filter (fun o => negb (documented o)) manual_select_options
     = [lit "this week"; lit "this month"; lit "recent days"]
  /\ forallb documented dashboard_select_options = true
  /\ documented (timePeriod initialState) = true.
Proof.
  split; [eexists; split; vm_compute; reflexivity|].
  repeat split.
Qed.

(* ================================================================== *)
(** ** Initialization *)

Lemma restoreSession_both (st : Storage) (q : Query) (tok : jsstring) (u : User) :
  access_token st = Some tok -> truthy tok = true ->
  user_data st = Some (Serialized u) ->
  restoreSession (mount st q) = Some (update (setUser (Some u)) (mount st q)).
Proof.
  intros Ht Htok Hu. unfold restoreSession. simpl.
  rewrite Ht, Hu, Htok. reflexivity.
Qed.

Lemma restoreSession_missing (st : Storage) (q : Query) :
  access_token st = None \/ user_data st = None ->
  restoreSession (mount st q) = Some (mount st q).
Proof.
  intros H. unfold restoreSession. simpl.
  destruct H as [H | H]; rewrite H; [reflexivity|].
  destruct (access_token st); reflexivity.
Qed.

(** A stored profile that [JSON.parse] rejects aborts the effect. *)
Lemma malformed_profile_aborts_effect (v : Variant) (st : Storage) (q : Query)
    (tok : jsstring) :
  access_token st = Some tok -> truthy tok = true ->
  user_data st = Some Malformed ->
  load v st q = None.
Proof.
  intros Ht Htok Hu. unfold load, useEffect, restoreSession. simpl.
  rewrite Ht, Hu, Htok. reflexivity.
Qed.

(** The callback half of the effect on [auth=error]: it sets the message
    and touches nothing else. *)
Lemma oauthCallback_error (v : Variant) (w : World) :
  get (search w) (lit "auth") = Some (lit "error") ->
  oauthCallback v w = update (setError (JSString msg_authorization_failed)) w.
Proof.
  intros H. unfold oauthCallback. rewrite H.
  destruct v; reflexivity.
Qed.

(** The callback half of the effect of [App.js] when the query carries
    no complete successful redirect: the session and storage are left
    alone. *)
Lemma oauthCallback_AppJs_no_session (w : World) :
  carries_session (search w) = false ->
  user (state (oauthCallback AppJs w)) = user (state w)
  /\ localStorage (oauthCallback AppJs w) = localStorage w
  /\ showManual (state (oauthCallback AppJs w)) = showManual (state w)
  /\ reloading (oauthCallback AppJs w) = reloading w.
Proof.
  unfold carries_session, oauthCallback. intros H. rewrite H.
  destruct (opt_str_eqb (get (search w) (lit "auth")) (lit "error"));
    repeat split.
Qed.

(** The callback half of the effect of [App.js] never clears a session
    and never sets the manual-mode flag. *)
Lemma oauthCallback_AppJs_keeps_session (w : World) :
  is_some (user (state w)) = true ->
  is_some (user (state (oauthCallback AppJs w))) = true
  /\ showManual (state (oauthCallback AppJs w)) = showManual (state w)
  /\ reloading (oauthCallback AppJs w) = reloading w.
Proof.
  unfold oauthCallback. intros H.
  destruct (opt_str_eqb (get (search w) (lit "auth")) (lit "success")
            && truthy_opt (get (search w) (lit "token"))
            && truthy_opt (get (search w) (lit "user"))).
  - destruct (get (search w) (lit "token")) as [tok|];
      destruct (get (search w) (lit "user")) as [mail|];
      repeat split; exact H.
  - destruct (opt_str_eqb (get (search w) (lit "auth")) (lit "error"));
      repeat split; exact H.
Qed.

(** An initial load of the earlier revision: whatever the query, the
    session and storage are what the restoration left. *)
Lemma load_Part001 (st : Storage) (q : Query) (w0 : World) :
  restoreSession (mount st q) = Some w0 ->
  exists w,
    load Part001 st q = Some w
    /\ user (state w) = user (state w0)
    /\ localStorage w = st
    /\ showManual (state w) = false.
Proof.
  intros R.
  assert (Hw0 : user (state w0) = user (state w0) /\ localStorage w0 = st
                /\ showManual (state w0) = false
                /\ reloading w0 = false
                /\ forall q', restoreSession (mount st q')
                              = Some (update (setUser (user (state w0)))
                                        (mount st q'))).
  { unfold restoreSession in *. simpl in *.
    destruct (access_token st) as [t|]; [destruct (user_data st) as [d|]|].
    - destruct (truthy t && truthy_text d).
      + destruct (JSON_parse d); [|discriminate R].
        injection R as <-. repeat split.
      + injection R as <-. repeat split.
    - injection R as <-. repeat split.
    - injection R as <-. repeat split. }
  destruct Hw0 as (_ & Hst & Hm & Hr & Hrest).
  unfold load, useEffect. rewrite R. unfold oauthCallback.
  destruct (opt_str_eqb (get (search w0) (lit "auth")) (lit "success")).
  - simpl. rewrite Hst, Hrest. simpl. eexists. split; [reflexivity|].
    repeat split.
  - destruct (opt_str_eqb (get (search w0) (lit "auth")) (lit "error"));
      simpl; rewrite Hr; eexists; (split; [reflexivity|]); repeat split; auto.
Qed.

(** The restoring half of the effect writes the session and nothing
    else. *)
Lemma restoreSession_frame (w w0 : World) :
  restoreSession w = Some w0 ->
  search w0 = search w
  /\ localStorage w0 = localStorage w
  /\ reloading w0 = reloading w
  /\ showManual (state w0) = showManual (state w)
  /\ error (state w0) = error (state w).
Proof.
  unfold restoreSession. intros R.
  destruct (access_token (localStorage w)) as [t|];
    [destruct (user_data (localStorage w)) as [d|]|].
  - destruct (truthy t && truthy_text d).
    + destruct (JSON_parse d); [|discriminate R].
      injection R as <-. repeat split.
    + injection R as <-. repeat split.
  - injection R as <-. repeat split.
  - injection R as <-. repeat split.
Qed.

Lemma oauthCallback_AppJs_not_reloading (w : World) :
  reloading (oauthCallback AppJs w) = reloading w.
Proof.
  unfold oauthCallback.
  destruct (opt_str_eqb (get (search w) (lit "auth")) (lit "success")
            && truthy_opt (get (search w) (lit "token"))
            && truthy_opt (get (search w) (lit "user"))).
  - destruct (get (search w) (lit "token")) as [tok|];
      destruct (get (search w) (lit "user")) as [mail|];
      reflexivity.
  - destruct (opt_str_eqb (get (search w) (lit "auth")) (lit "error"));
      reflexivity.
Qed.

Lemma load_AppJs (st : Storage) (q : Query) (w0 : World) :
  restoreSession (mount st q) = Some w0 ->
  load AppJs st q = Some (oauthCallback AppJs w0).
Proof.
  intros R. unfold load, useEffect. rewrite R.
  rewrite oauthCallback_AppJs_not_reloading.
  apply restoreSession_frame in R as (_ & _ & -> & _). reflexivity.
Qed.

(** An initial load whose query has [auth=error]: the effect is the
    restoration followed by the setting of the message. *)
Lemma load_auth_error (v : Variant) (st : Storage) (q : Query) (w0 : World) :
  get q (lit "auth") = Some (lit "error") ->
  restoreSession (mount st q) = Some w0 ->
  load v st q = Some (update (setError (JSString msg_authorization_failed)) w0).
Proof.
  intros Hq R.
  pose proof (restoreSession_frame _ _ R) as (Hs & _ & Hr & _).
  simpl in Hs, Hr. unfold load, useEffect. rewrite R.
  rewrite oauthCallback_error by (rewrite Hs; exact Hq).
  simpl. rewrite Hr. reflexivity.
Qed.

(** The restoring half of the effect on a fresh mount, in closed form. *)
Lemma restoreSession_mount (st : Storage) (q : Query) :
  restoreSession (mount st q)
  = if corrupt st then None
    else Some (update (setUser (stored_session st)) (mount st q)).
Proof.
  unfold restoreSession, corrupt, stored_session. simpl.
  destruct (access_token st) as [t|]; [|reflexivity].
  destruct (user_data st) as [[|u|]|]; destruct (truthy t); reflexivity.
Qed.

(** C8, as amended. For every initial load whose query string has
    [auth=error] and whose effect is not aborted by a stored profile it
    cannot parse (a non-empty token next to a non-empty profile text
    that [JSON.parse] rejects), initialization sets the OAuth-callback
    error message and the callback creates no session: the session is
    the one restoration yields, which is [null] when storage lacks the
    token or the profile, in particular when it is empty, and is the
    stored profile when storage holds a token and a profile.  Storage
    is left as found. *)
Theorem oauth_error_sets_message (v : Variant) (st : Storage) (q : Query) :
  get q (lit "auth") = Some (lit "error") ->
  corrupt st = false ->
  exists w,
    load v st q = Some w
    /\ error (state w) = JSString msg_authorization_failed
    /\ user (state w) = stored_session st
    /\ localStorage w = st
    /\ (access_token st = None \/ user_data st = None ->
        user (state w) = None)
    /\ (forall tok u,
          access_token st = Some tok -> truthy tok = true ->
          user_data st = Some (Serialized u) ->
          user (state w) = Some u).
Proof.
  intros Hq C.
  exists (update (setError (JSString msg_authorization_failed))
            (update (setUser (stored_session st)) (mount st q))).
  split.
  - apply load_auth_error; [exact Hq|].
    now rewrite restoreSession_mount, C.
  - split; [reflexivity|]. split; [reflexivity|]. split; [reflexivity|].
    unfold stored_session. simpl. split.
    + intros [H | H]; rewrite H; [reflexivity|].
      destruct (access_token st); reflexivity.
    + intros tok u Ht Htok Hu. now rewrite Ht, Hu, Htok.
Qed.

Lemma oauth_error_sets_message_witness :
  (exists w,
     load AppJs emptyStorage error_query = Some w
     /\ error (state w) = JSString msg_authorization_failed
     /\ user (state w) = None
     /\ localStorage w = emptyStorage)
  /\ (exists w,
        load Part001 alice_storage error_query = Some w
        /\ error (state w) = JSString msg_authorization_failed
        /\ user (state w) = Some alice
        /\ localStorage w = alice_storage).
Proof.
  split.
  - destruct (oauth_error_sets_message AppJs emptyStorage error_query
                eq_refl eq_refl)
      as (w & L & He & Hu & Hl & _).
    exists w. repeat split; assumption.
  - destruct (oauth_error_sets_message Part001 alice_storage error_query
                eq_refl eq_refl)
      as (w & L & He & Hu & Hl & _).
    exists w. repeat split; assumption.
Defined.

(** C8, as stated, fails: with a session in storage, a load whose query
    has [auth=error] sets the message and restores the session all the
    same, so the session is not [null] and the dashboard is shown. *)
Lemma oauth_error_with_stored_session :
  exists w,
    load AppJs alice_storage error_query = Some w
    /\ get error_query (lit "auth") = Some (lit "error")
    /\ error (state w) = JSString msg_authorization_failed
    /\ user (state w) = Some alice
    /\ screen (App (state w)) = DashboardScreen.
Proof.
  eexists. split; [vm_compute; reflexivity|]. repeat split.
Qed.

(** C9. For every initial load where storage holds a token (a non-empty
    string) and a user profile (a text [JSON.parse] decodes to a
    profile), the restoring half of the effect sets the session to the
    stored profile, and after initialization a session is present and
    the screen shown is the dashboard, not the login screen.  The
    session is the stored profile itself, except when [App.js] finds a
    complete successful OAuth redirect in the query and replaces it by
    the redirect's. *)
Theorem stored_session_is_restored
    (v : Variant) (st : Storage) (q : Query) (tok : jsstring) (u : User) :
  access_token st = Some tok -> truthy tok = true ->
  user_data st = Some (Serialized u) ->
  restoreSession (mount st q) = Some (update (setUser (Some u)) (mount st q))
  /\ exists w,
       load v st q = Some w
       /\ is_some (user (state w)) = true
       /\ screen (App (state w)) = DashboardScreen
       /\ (v = Part001 \/ carries_session q = false -> user (state w) = Some u).
Proof.
  intros Ht Htok Hu.
  pose proof (restoreSession_both st q tok u Ht Htok Hu) as R.
  split; [exact R|].
  destruct v.
  - pose proof (load_AppJs st q _ R) as L.
    destruct (oauthCallback_AppJs_keeps_session
                (update (setUser (Some u)) (mount st q)) eq_refl)
      as (Hs & Hm & _).
    pose proof (oauthCallback_AppJs_no_session
                  (update (setUser (Some u)) (mount st q))) as Hn.
    set (w1 := oauthCallback AppJs (update (setUser (Some u)) (mount st q))) in *.
    clearbody w1. exists w1.
    split; [exact L|]. split; [exact Hs|]. split.
    + rewrite App_screen, Hm. simpl.
      destruct (user (state w1)); [reflexivity | discriminate Hs].
    + intros [H | H]; [discriminate H|].
      now destruct (Hn H) as (-> & _).
  - destruct (load_Part001 st q _ R) as (w & Hl & Hus & _ & Hm).
    exists w. split; [exact Hl|]. simpl in Hus.
    split; [now rewrite Hus|]. split.
    + rewrite App_screen, Hm, Hus. reflexivity.
    + intros _. exact Hus.
Qed.

Lemma stored_session_is_restored_witness :
  exists w,
    load AppJs alice_storage [] = Some w
    /\ is_some (user (state w)) = true
    /\ screen (App (state w)) = DashboardScreen
    /\ (AppJs = Part001 \/ carries_session [] = false ->
        user (state w) = Some alice).
Proof.
  apply (stored_session_is_restored AppJs alice_storage [] (lit "t1") alice);
    reflexivity.
Defined.

(** C10, as amended. Restoration needs both slots: for every initial
    load where exactly one of the token slot and the profile slot is
    present, the restoring half of the effect changes nothing, and,
    unless [App.js] finds a complete successful OAuth redirect in the
    query, after initialization the session is [null], the login screen
    is shown and storage is as it was found. *)
Theorem restore_needs_both_slots (v : Variant) (st : Storage) (q : Query) :
  (access_token st = None /\ user_data st <> None)
  \/ (access_token st <> None /\ user_data st = None) ->
  v = Part001 \/ carries_session q = false ->
  restoreSession (mount st q) = Some (mount st q)
  /\ exists w,
       load v st q = Some w
       /\ user (state w) = None
       /\ localStorage w = st
       /\ screen (App (state w)) = LoginScreen.
Proof.
  intros Hone Hv.
  assert (R : restoreSession (mount st q) = Some (mount st q)).
  { apply restoreSession_missing. tauto. }
  split; [exact R|].
  destruct v.
  - destruct Hv as [Hv | Hv]; [discriminate Hv|].
    pose proof (load_AppJs st q _ R) as L.
    destruct (oauthCallback_AppJs_no_session (mount st q) Hv)
      as (Hu & Hl & Hm & _).
    set (w1 := oauthCallback AppJs (mount st q)) in *.
    clearbody w1. exists w1.
    split; [exact L|]. split; [exact Hu|]. split; [exact Hl|].
    rewrite App_screen, Hm, Hu. reflexivity.
  - destruct (load_Part001 st q _ R) as (w & Hl & Hus & Hst & Hm).
    exists w. split; [exact Hl|]. split; [exact Hus|]. split; [exact Hst|].
    rewrite App_screen, Hm, Hus. reflexivity.
Qed.

Lemma restore_needs_both_slots_witness :
  (exists w,
     load AppJs token_only_storage [] = Some w
     /\ user (state w) = None
     /\ localStorage w = token_only_storage
     /\ screen (App (state w)) = LoginScreen)
  /\ (exists w,
        load Part001 token_only_storage success_query = Some w
        /\ user (state w) = None
        /\ localStorage w = token_only_storage
        /\ screen (App (state w)) = LoginScreen).
Proof.
  split.
  - apply (restore_needs_both_slots AppJs token_only_storage []).
    + right. split; [discriminate | reflexivity].
    + right. reflexivity.
  - apply (restore_needs_both_slots Part001 token_only_storage success_query).
    + right. split; [discriminate | reflexivity].
    + left. reflexivity.
Defined.

(** C10, as stated, fails for [App.js]: with only the token slot
    present and a complete successful OAuth redirect in the query, the
    load creates a session from the redirect and overwrites the stored
    token. *)
Lemma redirect_creates_session_with_one_slot :
  exists w,
    load AppJs token_only_storage success_query = Some w
    /\ access_token token_only_storage = Some (lit "t1")
    /\ user_data token_only_storage = None
    /\ user (state w)
       = Some {| id := lit "b@y.com"; name := Some (lit "B");
                 email := lit "b@y.com" |}
    /\ access_token (localStorage w) = Some (lit "t2")
    /\ screen (App (state w)) = DashboardScreen.
Proof.
  eexists. split; [vm_compute; reflexivity|]. repeat split.
Qed.

(* ================================================================== *)
(** ** Initial loads, further *)

Lemma load_AppJs_closed (st : Storage) (q : Query) :
  load AppJs st q
  = if corrupt st then None
    else Some (oauthCallback AppJs
                 (update (setUser (stored_session st)) (mount st q))).
Proof.
  destruct (corrupt st) eqn:C.
  - unfold load, useEffect. now rewrite restoreSession_mount, C.
  - apply load_AppJs. now rewrite restoreSession_mount, C.
Qed.

Lemma load_Part001_closed (st : Storage) (q : Query) :
  load Part001 st q
  = if corrupt st then None
    else Some (if opt_str_eqb (get q (lit "auth")) (lit "success")
               then update (setUser (stored_session st)) (mount st [])
               else oauthCallback Part001
                      (update (setUser (stored_session st)) (mount st q))).
Proof.
  unfold load, useEffect. rewrite restoreSession_mount.
  destruct (corrupt st) eqn:C; [reflexivity|].
  unfold oauthCallback. simpl.
  destruct (opt_str_eqb (get q (lit "auth")) (lit "success")); simpl.
  - rewrite restoreSession_mount, C. reflexivity.
  - destruct (opt_str_eqb (get q (lit "auth")) (lit "error")); reflexivity.
Qed.

(** X1. An initial load fails, the effect throwing before it looks at
    the query, exactly when storage holds a non-empty token next to a
    non-empty profile text that [JSON.parse] rejects; every other load
    completes, among them the loads that find an empty token or an empty
    profile text, which are never parsed. *)
Theorem load_aborts_iff_corrupt (v : Variant) (st : Storage) (q : Query) :
  (load v st q = None
   <-> exists t, access_token st = Some t /\ truthy t = true
                 /\ user_data st = Some Malformed)
  /\ (user_data st = Some EmptyText -> load v st q <> None)
  /\ (access_token st = Some [] -> load v st q <> None).
Proof.
  assert (C : corrupt st = true
              <-> exists t, access_token st = Some t /\ truthy t = true
                            /\ user_data st = Some Malformed).
  { unfold corrupt. split.
    - destruct (access_token st) as [t|]; [|discriminate].
      destruct (user_data st) as [[|u|]|]; try discriminate.
      intros T. exists t. repeat split. exact T.
    - intros (t & -> & T & ->). exact T. }
  assert (L : load v st q = None <-> corrupt st = true).
  { destruct v; [rewrite load_AppJs_closed | rewrite load_Part001_closed];
      destruct (corrupt st); split; congruence. }
  split; [rewrite L; exact C|].
  split; intros H N; apply L in N; unfold corrupt in N; rewrite H in N.
  - destruct (access_token st); discriminate N.
  - destruct (user_data st) as [[|u|]|]; discriminate N.
Qed.

Lemma load_aborts_iff_corrupt_witness :
  load AppJs
    {| access_token := Some (lit "t1"); user_data := Some Malformed |}
    error_query = None
  /\ load AppJs
       {| access_token := Some (lit "t1"); user_data := Some EmptyText |}
       error_query <> None.
Proof.
  split.
  - destruct (load_aborts_iff_corrupt AppJs
                {| access_token := Some (lit "t1"); user_data := Some Malformed |}
                error_query) as ([_ H] & _).
    apply H. exists (lit "t1"). repeat split.
  - destruct (load_aborts_iff_corrupt AppJs
                {| access_token := Some (lit "t1"); user_data := Some EmptyText |}
                error_query) as (_ & H & _).
    apply H. reflexivity.
Defined.

(** Without a complete successful redirect for [App.js] to act on, a
    load that completes ends with the stored session and leaves storage
    alone. *)
Lemma load_session (v : Variant) (st : Storage) (q : Query) :
  corrupt st = false ->
  v = Part001 \/ carries_session q = false ->
  exists w,
    load v st q = Some w
    /\ user (state w) = stored_session st
    /\ localStorage w = st
    /\ showManual (state w) = false.
Proof.
  intros C Hv. destruct v.
  - destruct Hv as [Hv | Hv]; [discriminate Hv|].
    rewrite load_AppJs_closed, C. eexists. split; [reflexivity|].
    destruct (oauthCallback_AppJs_no_session
                (update (setUser (stored_session st)) (mount st q)) Hv)
      as (Hu & Hl & Hm & _).
    rewrite Hu, Hl, Hm. repeat split.
  - rewrite load_Part001_closed, C. eexists. split; [reflexivity|].
    unfold oauthCallback. simpl.
    destruct (opt_str_eqb (get q (lit "auth")) (lit "success")); simpl;
      [repeat split|].
    destruct (opt_str_eqb (get q (lit "auth")) (lit "error")); repeat split.
Qed.

Lemma carries_session_inv (q : Query) :
  carries_session q = true ->
  exists tok mail,
    get q (lit "token") = Some tok /\ get q (lit "user") = Some mail
    /\ truthy tok = true /\ truthy mail = true
    /\ opt_str_eqb (get q (lit "auth")) (lit "success") = true.
Proof.
  unfold carries_session. intros H.
  apply andb_true_iff in H as [H Hm]. apply andb_true_iff in H as [Ha Ht].
  destruct (get q (lit "token")) as [tok|]; [|discriminate Ht].
  destruct (get q (lit "user")) as [mail|]; [|discriminate Hm].
  exists tok, mail. repeat split; assumption.
Qed.

(** X2. In [App.js], an initial load whose query carries a complete
    successful redirect ([auth=success] with a non-empty [token] and
    [user]) and whose effect is not aborted stores the token and the
    profile built from the query (id and e-mail both the [user]
    parameter, name the [name] parameter or [null]), makes that profile
    the session whatever storage held before, clears the query from the
    URL and shows the dashboard. *)
Theorem redirect_creates_session (st : Storage) (q : Query) :
  carries_session q = true ->
  corrupt st = false ->
  exists tok mail w,
    get q (lit "token") = Some tok
    /\ get q (lit "user") = Some mail
    /\ load AppJs st q = Some w
    /\ user (state w)
       = Some {| id := mail; name := get q (lit "name"); email := mail |}
    /\ localStorage w
       = {| access_token := Some tok;
            user_data :=
              Some (Serialized
                      {| id := mail; name := get q (lit "name");
                         email := mail |}) |}
    /\ search w = []
    /\ error (state w) = JSString []
    /\ screen (App (state w)) = DashboardScreen.
Proof.
  intros Hq C.
  pose proof Hq as Hq'. unfold carries_session in Hq'.
  destruct (carries_session_inv q Hq) as (tok & mail & Ht & Hm & _).
  exists tok, mail. eexists. split; [exact Ht|]. split; [exact Hm|].
  split.
  - rewrite load_AppJs_closed, C. unfold oauthCallback. simpl.
    rewrite Hq', Ht, Hm. reflexivity.
  - repeat split.
Qed.

Lemma redirect_creates_session_witness :
  exists tok mail w,
    get success_query (lit "token") = Some tok
    /\ get success_query (lit "user") = Some mail
    /\ load AppJs alice_storage success_query = Some w
    /\ user (state w)
       = Some {| id := mail; name := get success_query (lit "name");
                 email := mail |}
    /\ localStorage w
       = {| access_token := Some tok;
            user_data :=
              Some (Serialized
                      {| id := mail; name := get success_query (lit "name");
                         email := mail |}) |}
    /\ search w = []
    /\ error (state w) = JSString []
    /\ screen (App (state w)) = DashboardScreen.
Proof.
  apply (redirect_creates_session alice_storage success_query); reflexivity.
Defined.

(** X3. The earlier revision reads only [auth] from a successful
    redirect: it clears the query and reloads, so the load ends exactly
    as a load of the same storage with no query at all, whatever
    [token] or [user] the URL carried. *)
Theorem part001_success_ignores_query (st : Storage) (q : Query) :
  get q (lit "auth") = Some (lit "success") ->
  load Part001 st q = load Part001 st [].
Proof.
  intros H. rewrite !load_Part001_closed, H. reflexivity.
Qed.

Lemma part001_success_ignores_query_witness :
  load Part001 token_only_storage success_query
  = load Part001 token_only_storage [].
Proof.
  apply (part001_success_ignores_query token_only_storage success_query).
  reflexivity.
Defined.

(** X4. Reloading the page after a completed initial load changes
    nothing: a load from the storage and the URL the first load left
    ends in the same world. *)
Theorem reload_is_stable (v : Variant) (st : Storage) (q : Query) (w : World) :
  load v st q = Some w ->
  load v (localStorage w) (search w) = Some w.
Proof.
  intros L. destruct v.
  - rewrite load_AppJs_closed in L.
    destruct (corrupt st) eqn:C; [discriminate L|]. injection L as <-.
    destruct (carries_session q) eqn:Hq.
    + destruct (carries_session_inv q Hq) as (tok & mail & Ht & Hm & Htok & _).
      pose proof Hq as Hq'. unfold carries_session in Hq'.
      unfold oauthCallback. simpl. rewrite Hq', Ht, Hm. simpl.
      rewrite load_AppJs_closed. unfold corrupt, stored_session. simpl.
      rewrite Htok. reflexivity.
    + pose proof Hq as Hq'. unfold carries_session in Hq'.
      unfold oauthCallback. simpl. rewrite Hq'.
      destruct (opt_str_eqb (get q (lit "auth")) (lit "error")) eqn:He; simpl;
        rewrite load_AppJs_closed, C; unfold oauthCallback; simpl;
        rewrite Hq', He; reflexivity.
  - rewrite load_Part001_closed in L.
    destruct (corrupt st) eqn:C; [discriminate L|]. injection L as <-.
    unfold oauthCallback. simpl.
    destruct (opt_str_eqb (get q (lit "auth")) (lit "success")) eqn:Hs; simpl.
    + rewrite load_Part001_closed, C. reflexivity.
    + destruct (opt_str_eqb (get q (lit "auth")) (lit "error")) eqn:He; simpl;
        rewrite load_Part001_closed, C, Hs; unfold oauthCallback; simpl;
        rewrite Hs, He; reflexivity.
Qed.

Lemma reload_is_stable_witness :
  exists w,
    load AppJs token_only_storage success_query = Some w
    /\ load AppJs (localStorage w) (search w) = Some w.
Proof.
  eexists. split; [reflexivity|].
  apply (reload_is_stable AppJs token_only_storage success_query).
  reflexivity.
Defined.

(* ================================================================== *)
(** ** Signing in and out *)

(** The sign-in widget is on the page only on the login screen. *)
Lemma login_widget_on_login_screen (w : World) :
  is_enabled (fun c => match c with GoogleLoginButton => true | _ => false end) w
  = true ->
  showManual (state w) = false /\ user (state w) = None.
Proof.
  unfold is_enabled, App. intros En.
  destruct (showManual (state w)), (user (state w)), (analysis (state w));
    simpl in En; try discriminate En; split; reflexivity.
Qed.

(** X5. A sign-in from the login screen whose credential exchange
    succeeds before anything else happens: the exchange request carries
    the credential, the returned token and profile are written to
    storage, the profile becomes the session, [loading] and the error
    are clear and the dashboard is shown. *)
Theorem login_success_shows_dashboard
    (v : Variant) (w w1 w2 : World) (credential : jsstring) (d : AuthData) :
  step v w (GoogleCredential credential) = Some w1 ->
  step v w1 (Respond (List.length (pending w)) (AuthReply (Resolved d)))
  = Some w2 ->
  sent w1 = sent w ++ [PostAuthGoogle credential]
  /\ user (state w2) = Some (auth_user d)
  /\ localStorage w2
     = {| access_token := Some (auth_access_token d);
          user_data := Some (Serialized (auth_user d)) |}
  /\ loading (state w2) = false
  /\ error (state w2) = JSString []
  /\ screen (App (state w2)) = DashboardScreen.
Proof.
  intros S1 S2. mounted S1 w Hh Hr Hv.
  destruct (is_enabled _ w) eqn:En; [|discriminate S1].
  apply login_widget_on_login_screen in En as [Hm Hu].
  injection S1 as <-.
  unfold step in S2. rewrite renders_no_error in S2 by reflexivity.
  simpl in S2. rewrite Hh, Hr, nth_error_last in S2.
  simpl in S2. injection S2 as <-.
  split; [reflexivity|]. split; [reflexivity|]. split; [reflexivity|].
  split; [reflexivity|]. split; [reflexivity|].
  rewrite App_screen. simpl. rewrite Hm. reflexivity.
Qed.

Lemma login_success_shows_dashboard_witness :
  exists w2,
    step AppJs (handleGoogleLogin_call (lit "cred") (mount emptyStorage []))
      (Respond 0
         (AuthReply
            (Resolved {| auth_access_token := lit "t1"; auth_user := alice |})))
    = Some w2
    /\ user (state w2) = Some alice
    /\ localStorage w2 = alice_storage
    /\ screen (App (state w2)) = DashboardScreen.
Proof.
  eexists. split; [reflexivity|].
  destruct (login_success_shows_dashboard AppJs (mount emptyStorage [])
              _ _ (lit "cred")
              {| auth_access_token := lit "t1"; auth_user := alice |}
              eq_refl eq_refl)
    as (_ & Hu & Hl & _ & _ & Hs).
  split; [exact Hu|]. split; [exact Hl|]. exact Hs.
Defined.

(** X6. A sign-in whose credential exchange fails before anything else
    happens creates no session and writes nothing to storage: [loading]
    is false and the login screen is returned with, in its error box,
    the backend's detail when the failure carries one (any truthy
    value, which [||] passes through), else
    ["Login failed. Please try again."].  That page can be mounted
    exactly when React accepts the error as a child: a string can, a
    detail that is an object (or a list holding one) makes the render
    throw. *)
Theorem login_failure_stays_on_login_screen
    (v : Variant) (w w1 w2 : World) (credential : jsstring) (e : AxiosError) :
  step v w (GoogleCredential credential) = Some w1 ->
  step v w1 (Respond (List.length (pending w)) (AuthReply (Rejected e)))
  = Some w2 ->
  user (state w2) = None
  /\ localStorage w2 = localStorage w
  /\ loading (state w2) = false
  /\ screen (App (state w2)) = LoginScreen
  /\ error (state w2) = or_else (err_detail e) msg_login_failed
  /\ error_box (App (state w2)) = Some (or_else (err_detail e) msg_login_failed)
  /\ truthy_value (or_else (err_detail e) msg_login_failed) = true
  /\ (forall d, err_detail e = Some d -> truthy_value d = true ->
        error (state w2) = d)
  /\ (err_detail e = None
      \/ (exists d, err_detail e = Some d /\ truthy_value d = false) ->
      error (state w2) = JSString msg_login_failed)
  /\ renders (App (state w2))
     = valid_child (or_else (err_detail e) msg_login_failed).
Proof.
  intros S1 S2. mounted S1 w Hh Hr Hv.
  destruct (is_enabled _ w) eqn:En; [|discriminate S1].
  apply login_widget_on_login_screen in En as [Hm Hu].
  injection S1 as <-.
  unfold step in S2. rewrite renders_no_error in S2 by reflexivity.
  simpl in S2. rewrite Hh, Hr, nth_error_last in S2.
  simpl in S2. injection S2 as <-.
  assert (T : truthy_value (or_else (err_detail e) msg_login_failed) = true)
    by (apply or_else_truthy; reflexivity).
  split; [exact Hu|]. split; [reflexivity|]. split; [reflexivity|].
  split; [rewrite App_screen; simpl; rewrite Hm, Hu; reflexivity|].
  split; [reflexivity|].
  split; [unfold App, show_error; simpl; rewrite Hm, Hu, T; reflexivity|].
  split; [exact T|].
  split; [intros d Hd Ht; simpl; now apply or_else_detail|].
  split; [intros Hd; simpl; now apply or_else_fallback|].
  unfold renders, App, show_error. simpl. rewrite Hm, Hu, T. reflexivity.
Qed.

Lemma login_failure_stays_on_login_screen_witness :
  (exists w2,
     step AppJs (handleGoogleLogin_call (lit "cred") (mount emptyStorage []))
       (Respond 0 (AuthReply (Rejected unauthorized)))
     = Some w2
     /\ user (state w2) = None
     /\ error_box (App (state w2)) = Some (JSString msg_login_failed)
     /\ renders (App (state w2)) = true)
  /\ (exists w2,
        step AppJs (handleGoogleLogin_call (lit "cred") (mount emptyStorage []))
          (Respond 0 (AuthReply (Rejected unprocessable)))
        = Some w2
        /\ error (state w2)
           = JSArray [JSObject [(lit "msg", JSString (lit "field required"))]]
        /\ renders (App (state w2)) = false).
Proof.
  split.
  - eexists. split; [reflexivity|].
    destruct (login_failure_stays_on_login_screen AppJs (mount emptyStorage [])
                _ _ (lit "cred") unauthorized eq_refl eq_refl)
      as (Hu & _ & _ & _ & _ & Hb & _ & _ & _ & Hr).
    split; [exact Hu|]. split; [exact Hb | exact Hr].
  - eexists. split; [reflexivity|].
    destruct (login_failure_stays_on_login_screen AppJs (mount emptyStorage [])
                _ _ (lit "cred") unprocessable eq_refl eq_refl)
      as (_ & _ & _ & _ & He & _ & _ & _ & _ & Hr).
    split; [exact He | exact Hr].
Defined.

(** X7. What a successful sign-in writes to storage is what a later
    load restores: when the token returned is not the empty string, a
    load from that storage ends on the dashboard, with the signed-in
    profile as session unless [App.js] finds a complete successful
    redirect in the query; when the token is the empty string, the
    session does not survive the reload. *)
Theorem login_then_reload
    (v : Variant) (w : World) (d : AuthData) (q : Query) :
  v = Part001 \/ carries_session q = false ->
  exists w',
    load v (localStorage (handleGoogleLogin_resume (Resolved d) w)) q = Some w'
    /\ (truthy (auth_access_token d) = true ->
        user (state w') = Some (auth_user d)
        /\ screen (App (state w')) = DashboardScreen)
    /\ (auth_access_token d = [] ->
        user (state w') = None
        /\ screen (App (state w')) = LoginScreen).
Proof.
  intros Hv.
  destruct (load_session v
              (localStorage (handleGoogleLogin_resume (Resolved d) w)) q)
    as (w' & L & Hu & _ & Hm); [reflexivity | exact Hv |].
  exists w'. split; [exact L|].
  unfold stored_session in Hu. simpl in Hu.
  split; intros Ht; rewrite Ht in Hu; rewrite App_screen, Hm, Hu;
    split; reflexivity.
Qed.

Lemma login_then_reload_witness :
  exists w',
    load Part001
      (localStorage
         (handleGoogleLogin_resume
            (Resolved {| auth_access_token := lit "t1"; auth_user := alice |})
            (mount emptyStorage []))) success_query
    = Some w'
    /\ user (state w') = Some alice.
Proof.
  destruct (login_then_reload Part001 (mount emptyStorage [])
              {| auth_access_token := lit "t1"; auth_user := alice |}
              success_query (or_introl eq_refl))
    as (w' & L & H & _).
  exists w'. split; [exact L|]. exact (proj1 (H eq_refl)).
Defined.

(** X8. After [logout], a reload restores nothing: whatever the world
    was, a load from the storage [logout] leaves ends with no session
    on the login screen, unless [App.js] finds a complete successful
    redirect in the query. *)
Theorem logout_then_reload (v : Variant) (w : World) (q : Query) :
  v = Part001 \/ carries_session q = false ->
  exists w',
    load v (localStorage (logout w)) q = Some w'
    /\ user (state w') = None
    /\ localStorage w' = emptyStorage
    /\ screen (App (state w')) = LoginScreen.
Proof.
  intros Hv.
  destruct (load_session v (localStorage (logout w)) q)
    as (w' & L & Hu & Hl & Hm); [reflexivity | exact Hv |].
  exists w'. split; [exact L|]. split; [exact Hu|]. split; [exact Hl|].
  rewrite App_screen, Hm, Hu. reflexivity.
Qed.

Lemma logout_then_reload_witness :
  exists w',
    load AppJs (localStorage (logout alice_dashboard)) error_query = Some w'
    /\ user (state w') = None
    /\ localStorage w' = emptyStorage
    /\ screen (App (state w')) = LoginScreen.
Proof.
  apply (logout_then_reload AppJs alice_dashboard error_query).
  right. reflexivity.
Defined.

(* ================================================================== *)
(** ** Invariants of a session *)

Lemma stored_session_stored (st : Storage) (u : User) :
  stored_session st = Some u ->
  user_data st = Some (Serialized u) /\ is_some (access_token st) = true.
Proof.
  unfold stored_session.
  destruct (access_token st) as [t|]; [|discriminate].
  destruct (user_data st) as [[|u'|]|]; try discriminate.
  destruct (truthy t); [|discriminate].
  intros H. injection H as ->. split; reflexivity.
Qed.

(** What a completed initial load leaves behind. *)
Lemma load_ends_fresh (v : Variant) (st : Storage) (q : Query) (w : World) :
  load v st q = Some w ->
  pending w = [] /\ sent w = [] /\ href w = None /\ reloading w = false
  /\ analysis (state w) = None
  /\ calendarData (state w) = []
  /\ timePeriod (state w) = lit "this_week"
  /\ loading (state w) = false
  /\ showManual (state w) = false
  /\ (error (state w) = JSString [] \/ error (state w) = JSString msg_authorization_failed)
  /\ session_stored w.
Proof.
  intros L.
  assert (S0 : forall q', session_stored
                            (update (setUser (stored_session st)) (mount st q'))).
  { intros q' u Hu. simpl in Hu. now apply stored_session_stored. }
  assert (S1 : forall q', session_stored
                            (update (setError (JSString msg_authorization_failed))
                               (update (setUser (stored_session st))
                                  (mount st q')))).
  { intros q' u Hu. simpl in Hu. now apply stored_session_stored. }
  destruct v.
  - rewrite load_AppJs_closed in L.
    destruct (corrupt st) eqn:C; [discriminate L|]. injection L as <-.
    destruct (carries_session q) eqn:Hq.
    + destruct (carries_session_inv q Hq) as (tok & mail & Ht & Hm & _).
      unfold carries_session in Hq.
      unfold oauthCallback. simpl. rewrite Hq, Ht, Hm.
      repeat (split; [first [reflexivity | left; reflexivity]|]).
      intros u Hu. simpl in Hu. injection Hu as <-. split; reflexivity.
    + unfold carries_session in Hq.
      unfold oauthCallback. simpl. rewrite Hq.
      destruct (opt_str_eqb (get q (lit "auth")) (lit "error"));
        repeat (split; [first [reflexivity | left; reflexivity
                              | right; reflexivity]|]);
        [apply S1 | apply S0].
  - rewrite load_Part001_closed in L.
    destruct (corrupt st) eqn:C; [discriminate L|]. injection L as <-.
    unfold oauthCallback. simpl.
    destruct (opt_str_eqb (get q (lit "auth")) (lit "success")); simpl.
    + repeat (split; [first [reflexivity | left; reflexivity]|]). apply S0.
    + destruct (opt_str_eqb (get q (lit "auth")) (lit "error"));
        repeat (split; [first [reflexivity | left; reflexivity
                              | right; reflexivity]|]);
        [apply S1 | apply S0].
Qed.

(** X9. A completed initial load issues no request and leaves nothing in
    flight; it navigates nowhere; the form is empty, the time period is
    ["this_week"], no result is held, [loading] is false, the
    manual-entry screen is not shown; the error message is empty or the
    OAuth-callback message; and a session, when one is set, is the
    profile now in storage, next to a token. *)
Theorem load_postcondition (v : Variant) (st : Storage) (q : Query) (w : World) :
  load v st q = Some w ->
  pending w = [] /\ sent w = [] /\ href w = None /\ reloading w = false
  /\ analysis (state w) = None
  /\ calendarData (state w) = []
  /\ timePeriod (state w) = lit "this_week"
  /\ loading (state w) = false
  /\ showManual (state w) = false
  /\ (error (state w) = JSString [] \/ error (state w) = JSString msg_authorization_failed)
  /\ session_stored w.
Proof.
  exact (load_ends_fresh v st q w).
Qed.

Lemma load_postcondition_witness :
  exists w,
    load AppJs alice_storage error_query = Some w
    /\ sent w = []
    /\ showManual (state w) = false
    /\ session_stored w.
Proof.
  eexists. split; [reflexivity|].
  destruct (load_postcondition AppJs alice_storage error_query _ eq_refl)
    as (_ & Hs & _ & _ & _ & _ & _ & _ & Hm & _ & Hi).
  split; [exact Hs|]. split; [exact Hm | exact Hi].
Defined.

Lemma run_invariant (v : Variant) (P : World -> Prop) :
  (forall w e w', P w -> step v w e = Some w' -> P w') ->
  forall events w w', P w -> run v w events = Some w' -> P w'.
Proof.
  intros Hstep. induction events as [|e rest IH]; simpl; intros w w' Hw R.
  - injection R as <-. exact Hw.
  - destruct (step v w e) as [w1|] eqn:S; [|discriminate R].
    exact (IH w1 w' (Hstep w e w1 Hw S) R).
Qed.

Lemma offers_selectable (w : World) (value : jsstring) :
  is_enabled (offers value) w = true -> selectable value = true.
Proof.
  unfold is_enabled, selectable, selectable_time_periods, App.
  rewrite existsb_app.
  generalize dashboard_select_options, manual_select_options.
  intros dopts mopts H.
  destruct (showManual (state w)), (user (state w)), (analysis (state w));
    simpl in H; try discriminate H;
    rewrite orb_false_r in H; rewrite H; auto using orb_true_r.
Qed.

(** The automatic analyze button is enabled only on the dashboard form,
    while nothing is loading. *)
Lemma auto_button_enabled (w : World) :
  is_enabled
    (fun c => match c with AnalyzeAutoButton d => negb d | _ => false end) w
  = true ->
  showManual (state w) = false
  /\ (exists u, user (state w) = Some u)
  /\ analysis (state w) = None
  /\ loading (state w) = false.
Proof.
  unfold is_enabled, App. intros En.
  destruct (showManual (state w)), (user (state w)) as [u|],
    (analysis (state w));
    simpl in En; try discriminate En.
  destruct (loading (state w)); [discriminate En|].
  repeat split. now exists u.
Qed.

Ltac enabled_or_stop S En :=
  match type of S with
  | when ?b _ = Some _ =>
      destruct b eqn:En; [simpl in S; injection S as <- | discriminate S]
  end.

Ltac invariant_frame Hs Hf Ht :=
  split; [exact Hs | split; [exact Hf | exact Ht]].

Lemma step_invariant (v : Variant) (w : World) (e : Event) (w' : World) :
  invariant w -> step v w e = Some w' -> invariant w'.
Proof.
  intros (Hs & Hf & Ht) S. mounted S w Hh Hr Hv.
  destruct e.
  - (* back to login *)
    enabled_or_stop S En. invariant_frame Hs Hf Ht.
  - (* select a time period *)
    enabled_or_stop S En.
    split; [exact Hs | split; [exact Hf |]].
    simpl. now apply (offers_selectable w).
  - (* type into the text area *)
    enabled_or_stop S En. invariant_frame Hs Hf Ht.
  - (* manual analysis *)
    enabled_or_stop S En.
    apply manual_button_enabled in En as (B & _ & _).
    unfold analyzeCalendarManual_call. rewrite not_trim_is_blank, B.
    split; [exact Hs | split; [| exact Ht]].
    simpl. rewrite forallb_app, Hf. simpl. now rewrite B, Ht.
  - (* reset *)
    enabled_or_stop S En. invariant_frame Hs Hf Ht.
  - (* credential from the sign-in widget *)
    enabled_or_stop S En.
    split; [exact Hs | split; [| exact Ht]].
    simpl. rewrite forallb_app, Hf. reflexivity.
  - (* sign-in widget error *)
    enabled_or_stop S En. invariant_frame Hs Hf Ht.
  - (* manual mode *)
    enabled_or_stop S En. invariant_frame Hs Hf Ht.
  - (* logout *)
    enabled_or_stop S En.
    split; [| split; [exact Hf | exact Ht]].
    intros u Hu. discriminate Hu.
  - (* authorize *)
    enabled_or_stop S En.
    split; [exact Hs | split; [| exact Ht]].
    simpl. rewrite forallb_app, Hf. reflexivity.
  - (* automatic analysis *)
    enabled_or_stop S En.
    apply auto_button_enabled in En as (_ & (u & Hu) & _ & _).
    destruct (Hs u Hu) as (_ & Htok).
    split; [exact Hs | split; [| exact Ht]].
    simpl. rewrite forallb_app, Hf. simpl. now rewrite Htok, Ht.
  - (* a response arrives *)
    destruct (nth_error (pending w) i) as [q|]; [|discriminate S].
    destruct q, r as [o|o|o]; simpl in S; try discriminate S;
      injection S as <-; destruct o as [d|err].
    + split; [| split; [exact Hf | exact Ht]].
      intros u Hu. simpl in Hu. injection Hu as <-. split; reflexivity.
    + invariant_frame Hs Hf Ht.
    + invariant_frame Hs Hf Ht.
    + invariant_frame Hs Hf Ht.
    + invariant_frame Hs Hf Ht.
    + unfold analyzeCalendarAuto_resume.
      destruct (status_is err 401); invariant_frame Hs Hf Ht.
    + invariant_frame Hs Hf Ht.
    + invariant_frame Hs Hf Ht.
Qed.

Lemma session_invariant (v : Variant) (st : Storage) (q : Query)
    (events : list Event) (w : World) :
  session v st q events = Some w -> invariant w.
Proof.
  unfold session. intros H.
  destruct (load v st q) as [w0|] eqn:L; [|discriminate H].
  apply (run_invariant v invariant (step_invariant v) events w0 w); [|exact H].
  destruct (load_ends_fresh v st q w0 L)
    as (_ & Hsent & _ & _ & _ & _ & Htp & _ & _ & _ & Hs).
  split; [exact Hs|]. rewrite Hsent, Htp. split; reflexivity.
Qed.

(** X10. Throughout a session (an initial load followed by any events)
    the session held in the state is the profile held in storage, and
    storage holds a token next to it: sign-in, the OAuth redirect and
    restoration set the two together, and [logout] clears them
    together. *)
Theorem session_is_the_stored_profile
    (v : Variant) (st : Storage) (q : Query) (events : list Event)
    (w : World) (u : User) :
  session v st q events = Some w ->
  user (state w) = Some u ->
  user_data (localStorage w) = Some (Serialized u)
  /\ exists token, access_token (localStorage w) = Some token.
Proof.
  intros H Hu. destruct (session_invariant v st q events w H) as (Hs & _).
  destruct (Hs u Hu) as (Hd & Ht). split; [exact Hd|].
  destruct (access_token (localStorage w)) as [t|]; [|discriminate Ht].
  now exists t.
Qed.

(** X11. Every manual-analysis request issued during a session carries
    pasted text that is not blank and a time period that one of the two
    selectors offers (or the initial one). *)
Theorem manual_requests_carry_text
    (v : Variant) (st : Storage) (q : Query) (events : list Event)
    (w : World) (text period : jsstring) :
  session v st q events = Some w ->
  In (PostAnalyzeCalendar text period) (sent w) ->
  blank text = false /\ In period selectable_time_periods.
Proof.
  intros H Hin. destruct (session_invariant v st q events w H) as (_ & Hf & _).
  rewrite forallb_forall in Hf. specialize (Hf _ Hin). simpl in Hf.
  apply andb_true_iff in Hf as [Hb Hp].
  split; [now destruct (blank text)|].
  unfold selectable in Hp. apply existsb_exists in Hp as (x & Hx & E).
  apply str_eqb_eq in E. now subst.
Qed.

(** X12. Every automatic-analysis request issued during a session
    carries a bearer token read from storage, never [null], and a time
    period that one of the two selectors offers (or the initial one). *)
Theorem auto_requests_carry_token
    (v : Variant) (st : Storage) (q : Query) (events : list Event)
    (w : World) (period : jsstring) (bearer : option jsstring) :
  session v st q events = Some w ->
  In (PostAnalyzeCalendarAuto period bearer) (sent w) ->
  (exists token, bearer = Some token) /\ In period selectable_time_periods.
Proof.
  intros H Hin. destruct (session_invariant v st q events w H) as (_ & Hf & _).
  rewrite forallb_forall in Hf. specialize (Hf _ Hin). simpl in Hf.
  apply andb_true_iff in Hf as [Hb Hp].
  split; [destruct bearer as [t|]; [now exists t | discriminate Hb]|].
  unfold selectable in Hp. apply existsb_exists in Hp as (x & Hx & E).
  apply str_eqb_eq in E. now subst.
Qed.

Lemma session_is_the_stored_profile_witness :
  user_data
    (localStorage (update (setTimePeriod (lit "today")) alice_dashboard))
  = Some (Serialized alice)
  /\ exists token,
       access_token
         (localStorage (update (setTimePeriod (lit "today")) alice_dashboard))
       = Some token.
Proof.
  apply (session_is_the_stored_profile AppJs alice_storage []
           [SelectTimePeriod (lit "today")]
           (update (setTimePeriod (lit "today")) alice_dashboard) alice).
  - reflexivity.
  - reflexivity.
Defined.

Lemma manual_requests_carry_text_witness :
  blank (lit "9-10 standup") = false
  /\ In (lit "this week") selectable_time_periods.
Proof.
  eapply (manual_requests_carry_text AppJs emptyStorage [] manual_this_week).
  - reflexivity.
  - left. reflexivity.
Defined.

Lemma auto_requests_carry_token_witness :
  (exists token, Some (lit "t1") = Some token)
  /\ In (lit "this_week") selectable_time_periods.
Proof.
  eapply (auto_requests_carry_token AppJs alice_storage [] [ClickAnalyzeAuto]).
  - reflexivity.
  - left. reflexivity.
Defined.

(* ================================================================== *)
(** ** The analyze buttons *)

(** X13. A click on the manual analyze button always sends: the button
    is enabled only over text that is not blank, so the click issues the
    request with the pasted text and the selected period, sets
    [loading] and clears the error; the validation branch of the handler
    is never taken from the page. *)
Theorem manual_click_always_sends (v : Variant) (w w' : World) :
  step v w ClickAnalyzeManual = Some w' ->
  sent w' = sent w ++ [PostAnalyzeCalendar (calendarData (state w))
                         (timePeriod (state w))]
  /\ loading (state w') = true
  /\ error (state w') = JSString []
  /\ blank (calendarData (state w)) = false.
Proof.
  intros S. mounted S w Hh Hr Hv.
  enabled_or_stop S En.
  apply manual_button_enabled in En as (B & _ & _).
  unfold analyzeCalendarManual_call. rewrite not_trim_is_blank, B.
  repeat split.
Qed.

Lemma manual_click_always_sends_witness :
  sent (analyzeCalendarManual_call AppJs
          (update (setCalendarData (lit "x")) alice_dashboard))
  = [PostAnalyzeCalendar (lit "x") (lit "this_week")].
Proof.
  apply (manual_click_always_sends AppJs
           (update (setCalendarData (lit "x")) alice_dashboard)).
  reflexivity.
Defined.

(** X14. The automatic analysis can be started only from the dashboard
    form: with a session, the manual-entry screen off, no result held
    and nothing loading; the click sends the selected time period with
    the token found in storage, sets [loading] and clears the error. *)
Theorem auto_click_needs_session (v : Variant) (w w' : World) :
  step v w ClickAnalyzeAuto = Some w' ->
  (exists u, user (state w) = Some u)
  /\ showManual (state w) = false
  /\ analysis (state w) = None
  /\ loading (state w) = false
  /\ sent w' = sent w ++ [PostAnalyzeCalendarAuto (timePeriod (state w))
                            (access_token (localStorage w))]
  /\ loading (state w') = true
  /\ error (state w') = JSString [].
Proof.
  intros S. mounted S w Hh Hr Hv.
  enabled_or_stop S En.
  apply auto_button_enabled in En as (Hm & Hu & Ha & Hl).
  repeat split; assumption.
Qed.

Lemma auto_click_needs_session_witness :
  (exists u, user (state alice_dashboard) = Some u)
  /\ sent (analyzeCalendarAuto_call alice_dashboard)
     = [PostAnalyzeCalendarAuto (lit "this_week") (Some (lit "t1"))].
Proof.
  destruct (auto_click_needs_session AppJs alice_dashboard
              (analyzeCalendarAuto_call alice_dashboard) eq_refl)
    as (Hu & _ & _ & _ & Hs & _).
  split; [exact Hu | exact Hs].
Defined.

(** X15. No double submission: right after a click on either analyze
    button, both analyze buttons are disabled, so neither analysis can
    be started again until some other event resets [loading]. *)
Theorem no_double_submit (v : Variant) (w w1 : World) (e e' : Event) :
  e = ClickAnalyzeAuto \/ e = ClickAnalyzeManual ->
  e' = ClickAnalyzeAuto \/ e' = ClickAnalyzeManual ->
  step v w e = Some w1 ->
  step v w1 e' = None.
Proof.
  intros He He' S.
  assert (L : loading (state w1) = true).
  { mounted S w Hh Hr Hv. destruct He as [-> | ->]; enabled_or_stop S En.
    - reflexivity.
    - apply manual_button_enabled in En as (B & _ & _).
      unfold analyzeCalendarManual_call. rewrite not_trim_is_blank, B.
      reflexivity. }
  destruct (step v w1 e') as [w2|] eqn:S'; [|reflexivity].
  exfalso. mounted S' w1 Hh Hr Hv.
  destruct He' as [-> | ->]; enabled_or_stop S' En.
  - apply auto_button_enabled in En as (_ & _ & _ & L'). congruence.
  - apply manual_button_enabled in En as (_ & L' & _). congruence.
Qed.

Lemma no_double_submit_witness :
  step AppJs (analyzeCalendarAuto_call alice_dashboard) ClickAnalyzeAuto = None.
Proof.
  apply (no_double_submit AppJs alice_dashboard
           (analyzeCalendarAuto_call alice_dashboard)
           ClickAnalyzeAuto ClickAnalyzeAuto).
  - left. reflexivity.
  - left. reflexivity.
  - reflexivity.
Defined.



(** X17. A successful authorization request, completing before anything
    else happens, navigates the page to the URL the backend returned;
    it sets no error and never resets [loading], and leaves the session,
    storage and any result as they were. *)
Theorem successful_authorization_navigates
    (v : Variant) (w w1 w2 : World) (url : jsstring) :
  step v w ClickAuthorize = Some w1 ->
  step v w1 (Respond (List.length (pending w)) (UrlReply (Resolved url)))
  = Some w2 ->
  href w2 = Some url
  /\ loading (state w2) = true
  /\ error (state w2) = JSString []
  /\ sent w2 = sent w ++ [GetAuthGoogleCalendar]
  /\ user (state w2) = user (state w)
  /\ localStorage w2 = localStorage w
  /\ analysis (state w2) = analysis (state w).
Proof.
  intros S1 S2. mounted S1 w Hh Hr Hv.
  enabled_or_stop S1 En.
  unfold step in S2. rewrite renders_no_error in S2 by reflexivity.
  simpl in S2. rewrite Hh, Hr, nth_error_last in S2.
  simpl in S2. injection S2 as <-.
  repeat split.
Qed.

Lemma successful_authorization_navigates_witness :
  href (requestCalendarAccess_resume (Resolved (lit "https://accounts.example/o"))
          (settle 0 (requestCalendarAccess_call alice_dashboard)))
  = Some (lit "https://accounts.example/o").
Proof.
  apply (successful_authorization_navigates AppJs alice_dashboard _ _
           (lit "https://accounts.example/o") eq_refl eq_refl).
Defined.

(* ================================================================== *)
(** ** What a render shows *)

(** X18. A render never shows the error box and the results panel
    together, even in a state that holds both an error and a result:
    the error box is inside the form, shown only while no result is
    held (or on the login screen), and it shows the error exactly when
    it is not empty; the results panel shows the held result, and never
    on the login screen. *)
Theorem error_box_and_results_exclusive (s : State) :
  (error_box (App s) = None \/ results (App s) = None)
  /\ (screen (App s) = LoginScreen -> results (App s) = None)
  /\ (screen (App s) <> LoginScreen -> results (App s) = analysis s)
  /\ (forall m, error_box (App s) = Some m ->
        m = error s /\ truthy_value m = true
        /\ (analysis s = None \/ screen (App s) = LoginScreen))
  /\ (truthy_value (error s) = true ->
      analysis s = None \/ screen (App s) = LoginScreen ->
      error_box (App s) = Some (error s)).
Proof.
  unfold App, show_error.
  destruct (showManual s), (user s), (analysis s), (truthy_value (error s)) eqn:T;
    simpl;
    (split; [first [left; reflexivity | right; reflexivity]|]);
    (split; [intros H; first [reflexivity | discriminate H]|]);
    (split; [intros H; first [reflexivity | exfalso; apply H; reflexivity]|]);
    (split;
     [intros m Hm;
      first [discriminate Hm
            | injection Hm as <-;
              split; [reflexivity|]; split; [exact T|];
              first [left; reflexivity | right; reflexivity]]
     | intros Ht Hc;
       first [reflexivity | discriminate Ht
             | destruct Hc as [Hc | Hc]; discriminate Hc]]).
Qed.

Lemma error_box_and_results_exclusive_witness :
  error_box
    (App (setError (JSString msg_auto_failed)
            (setAnalysis (Some some_analysis) (state alice_dashboard))))
  = None
  /\ results
       (App (setError (JSString msg_auto_failed)
               (setAnalysis (Some some_analysis) (state alice_dashboard))))
     = Some some_analysis.
Proof.
  destruct (error_box_and_results_exclusive
              (setError (JSString msg_auto_failed)
                 (setAnalysis (Some some_analysis) (state alice_dashboard))))
    as ([H | H] & _ & H3 & _).
  - split; [exact H | reflexivity].
  - discriminate H.
Defined.

(* ================================================================== *)
(** ** How the handlers compose *)

(** X19. [logout] subsumes [resetAnalysis], and both are idempotent:
    resetting before or after logging out changes nothing about the
    outcome of the logout. *)
Theorem logout_subsumes_reset (w : World) :
  logout (resetAnalysis w) = logout w
  /\ resetAnalysis (logout w) = logout w
  /\ logout (logout w) = logout w
  /\ resetAnalysis (resetAnalysis w) = resetAnalysis w.
Proof.
  repeat split.
Qed.

(** X20. Entering the manual-entry screen from the login screen and
    going back is a round trip: the two clicks are always possible in
    that order and leave the world exactly as it was, pasted text,
    result and error included. *)
Theorem manual_mode_round_trip (v : Variant) (w w1 : World) :
  step v w ClickManualMode = Some w1 ->
  screen (App (state w)) = LoginScreen
  /\ screen (App (state w1)) = ManualScreen
  /\ step v w1 ClickBackToLogin = Some w.
Proof.
  intros S. mounted S w Hh Hr Hv.
  enabled_or_stop S En.
  assert (Hm : showManual (state w) = false /\ user (state w) = None).
  { unfold is_enabled, App in En.
    destruct (showManual (state w)), (user (state w)), (analysis (state w));
      simpl in En; try discriminate En; split; reflexivity. }
  destruct Hm as [Hm Hu].
  split; [rewrite App_screen, Hm, Hu; reflexivity|].
  split; [rewrite App_screen; reflexivity|].
  assert (R : renders (App (state (update (setShowManual true) w))) = true).
  { unfold renders, App in Hv |- *. rewrite Hm, Hu in Hv. simpl in Hv |- *.
    destruct (analysis (state w)); [reflexivity | exact Hv]. }
  unfold step. rewrite R. simpl. rewrite Hh, Hr.
  replace (is_enabled _ _) with true.
  - simpl. f_equal. destruct w as [s ls se pe sn hr rl].
    destruct s as [us cd tp an ld er sm]. simpl in Hm. subst sm. reflexivity.
  - unfold is_enabled, App. simpl.
    destruct (analysis (state w)); reflexivity.
Qed.

Lemma manual_mode_round_trip_witness :
  step AppJs (update (setShowManual true) (mount emptyStorage []))
    ClickBackToLogin
  = Some (mount emptyStorage []).
Proof.
  apply (manual_mode_round_trip AppJs (mount emptyStorage [])
           (update (setShowManual true) (mount emptyStorage []))).
  reflexivity.
Defined.

(* ================================================================== *)
(** ** Score colours *)

(** X21. The text colour and the gradient of a score always name the
    same band, in [App.js] and in the earlier revisions alike: green
    from 70 up, yellow from 40 up to but not including 70, red below 40;
    the revisions differ only in the green gradient. *)
Theorem colour_and_gradient_agree (p : QArith_base.Q) :
  ((QArith_base.Qle (QArith_base.Qmake (BinNums.Zpos 70%positive) 1%positive) p
    /\ getFreedomColor p = lit "text-green-400"
    /\ getFreedomGradient p = lit "from-green-400 to-blue-500"
    /\ Part000.getIndependenceGradient p = lit "from-green-400 to-green-600")
   \/ (QArith_base.Qle (QArith_base.Qmake (BinNums.Zpos 40%positive) 1%positive) p
       /\ QArith_base.Qlt p
            (QArith_base.Qmake (BinNums.Zpos 70%positive) 1%positive)
       /\ getFreedomColor p = lit "text-yellow-400"
       /\ getFreedomGradient p = lit "from-yellow-400 to-orange-500"
       /\ Part000.getIndependenceGradient p = getFreedomGradient p)
   \/ (QArith_base.Qlt p
         (QArith_base.Qmake (BinNums.Zpos 40%positive) 1%positive)
       /\ getFreedomColor p = lit "text-red-400"
       /\ getFreedomGradient p = lit "from-red-400 to-red-600"
       /\ Part000.getIndependenceGradient p = getFreedomGradient p))
  /\ Part000.getIndependenceColor p = getFreedomColor p.
Proof.
  split; [|reflexivity].
  unfold getFreedomColor, getFreedomGradient, Part000.getIndependenceGradient.
  destruct (QArith_base.Qle_bool
              (QArith_base.Qmake (BinNums.Zpos 70%positive) 1%positive) p) eqn:H70.
  - left. apply QArith_base.Qle_bool_iff in H70. repeat split. exact H70.
  - assert (L70 : QArith_base.Qlt p
                    (QArith_base.Qmake (BinNums.Zpos 70%positive) 1%positive)).
    { apply QArith_base.Qnot_le_lt. intros H.
      apply QArith_base.Qle_bool_iff in H. congruence. }
    destruct (QArith_base.Qle_bool
                (QArith_base.Qmake (BinNums.Zpos 40%positive) 1%positive) p)
      eqn:H40.
    + right. left. apply QArith_base.Qle_bool_iff in H40. repeat split; assumption.
    + right. right. repeat split.
      apply QArith_base.Qnot_le_lt. intros H.
      apply QArith_base.Qle_bool_iff in H. congruence.
Qed.

(* ================================================================== *)
(** ** The manual-only revision as a whole *)

Lemma part000_form_controls (p : Part000.Page) (pick : Control -> bool) :
  Part000.is_enabled pick p = true ->
  pick ResetButton = false ->
  Part000.analysis (Part000.state p) = None.
Proof.
  unfold Part000.is_enabled, Part000.App. intros En Hr.
  destruct (Part000.analysis (Part000.state p)); [|reflexivity].
  simpl in En. rewrite Hr in En. discriminate En.
Qed.

Lemma part000_analyze_enabled (p : Part000.Page) :
  Part000.is_enabled
    (fun c => match c with AnalyzeManualButton d => negb d | _ => false end) p
  = true ->
  Part000.analysis (Part000.state p) = None
  /\ Part000.loading (Part000.state p) = false
  /\ blank (Part000.calendarData (Part000.state p)) = false.
Proof.
  intros En. pose proof (part000_form_controls p _ En eq_refl) as A.
  split; [exact A|].
  rewrite <- not_trim_is_blank.
  unfold Part000.is_enabled, Part000.App in En. rewrite A in En. simpl in En.
  destruct (Part000.loading (Part000.state p)); [discriminate En|].
  destruct (negb (truthy (trim (Part000.calendarData (Part000.state p)))));
    [discriminate En | split; reflexivity].
Qed.

Lemma part000_offers (p : Part000.Page) (value : jsstring) :
  Part000.is_enabled (offers value) p = true ->
  In value manual_select_options.
Proof.
  unfold Part000.is_enabled, Part000.App.
  generalize manual_select_options. intros opts En.
  destruct (Part000.analysis (Part000.state p)); simpl in En;
    [discriminate En|].
  rewrite orb_false_r in En.
  apply existsb_exists in En as (x & Hin & E).
  apply str_eqb_eq in E. now subst.
Qed.

Lemma part000_step_invariant (p p' : Part000.Page) (e : Part000.Event) :
  (settled p \/ waiting p)
  /\ (Part000.analysis (Part000.state p) = None
      \/ Part000.error (Part000.state p) = JSString [])
  /\ In (Part000.timePeriod (Part000.state p)) manual_select_options ->
  Part000.step p e = Some p' ->
  (settled p' \/ waiting p')
  /\ (Part000.analysis (Part000.state p') = None
      \/ Part000.error (Part000.state p') = JSString [])
  /\ In (Part000.timePeriod (Part000.state p')) manual_select_options.
Proof.
  intros (Hphase & Hx & Ht) S. unfold Part000.step in S.
  destruct (Part000.renders (Part000.App (Part000.state p)));
    simpl in S; [|discriminate S].
  destruct e; simpl in S.
  - (* select *)
    destruct (Part000.is_enabled (offers value) p) eqn:En; [|discriminate S].
    injection S as <-. split; [exact Hphase|]. split; [exact Hx|].
    now apply (part000_offers p).
  - (* type *)
    destruct (Part000.is_enabled _ p); [|discriminate S].
    injection S as <-. split; [exact Hphase|]. split; [exact Hx | exact Ht].
  - (* analyze *)
    destruct (Part000.is_enabled _ p) eqn:En; [|discriminate S].
    apply part000_analyze_enabled in En as (A & L & B).
    unfold Part000.analyzeCalendar_call in S.
    rewrite not_trim_is_blank, B in S. simpl in S. injection S as <-.
    destruct Hphase as [(_ & Hp) | (L' & _)]; [|congruence].
    split; [right|].
    + repeat split; [exact A|]. simpl. rewrite Hp. eexists. reflexivity.
    + split; [right; reflexivity | exact Ht].
  - (* reset *)
    destruct (Part000.is_enabled _ p) eqn:En; [|discriminate S].
    injection S as <-.
    assert (A : Part000.analysis (Part000.state p) <> None).
    { intros A. unfold Part000.is_enabled, Part000.App in En.
      rewrite A in En. discriminate En. }
    destruct Hphase as [(L & Hp) | (_ & A' & _)]; [|contradiction].
    split; [left; split; assumption|].
    split; [left; reflexivity | exact Ht].
  - (* response *)
    destruct (nth_error (Part000.pending p) i) as [q|] eqn:N; [|discriminate S].
    injection S as <-.
    destruct Hphase as [(_ & Hp) | (_ & A & E & (q0 & Hp))].
    + rewrite Hp in N. destruct i; discriminate N.
    + rewrite Hp in N |- *.
      destruct i as [|i]; [|destruct i; discriminate N].
      destruct r as [d|err];
        (split; [left; split; reflexivity|]; split; [| exact Ht]); simpl;
        [right; exact E | left; exact A].
Qed.

Lemma part000_invariant (events : list Part000.Event) (p : Part000.Page) :
  Part000.run Part000.initialPage events = Some p ->
  (settled p \/ waiting p)
  /\ (Part000.analysis (Part000.state p) = None
      \/ Part000.error (Part000.state p) = JSString [])
  /\ In (Part000.timePeriod (Part000.state p)) manual_select_options.
Proof.
  assert (G : forall evs p0 p1,
             ((settled p0 \/ waiting p0)
              /\ (Part000.analysis (Part000.state p0) = None
                  \/ Part000.error (Part000.state p0) = JSString [])
              /\ In (Part000.timePeriod (Part000.state p0)) manual_select_options) ->
             Part000.run p0 evs = Some p1 ->
             (settled p1 \/ waiting p1)
             /\ (Part000.analysis (Part000.state p1) = None
                 \/ Part000.error (Part000.state p1) = JSString [])
             /\ In (Part000.timePeriod (Part000.state p1)) manual_select_options).
  { induction evs as [|e rest IH]; simpl; intros p0 p1 H0 R.
    - injection R as <-. exact H0.
    - destruct (Part000.step p0 e) as [p2|] eqn:S; [|discriminate R].
      exact (IH p2 p1 (part000_step_invariant p0 p2 e H0 S) R). }
  apply G. split; [left; split; reflexivity|].
  split; [left; reflexivity|]. right. left. reflexivity.
Qed.

(** X22. In the manual-only revision, whatever the user and the network
    do from the first render on: the state never holds a result and a
    non-empty error message at once; at most one request is in flight,
    and [loading] is true exactly while one is; and the selected time
    period is always one of the four values its selector offers. *)
Theorem part000_never_result_and_error
    (events : list Part000.Event) (p : Part000.Page) :
  Part000.run Part000.initialPage events = Some p ->
  (Part000.analysis (Part000.state p) = None
   \/ Part000.error (Part000.state p) = JSString [])
  /\ List.length (Part000.pending p) <= 1
  /\ (Part000.loading (Part000.state p) = true <-> Part000.pending p <> [])
  /\ In (Part000.timePeriod (Part000.state p)) manual_select_options.
Proof.
  intros R. destruct (part000_invariant events p R) as (Hphase & Hx & Ht).
  split; [exact Hx|]. split; [|split; [|exact Ht]].
  - destruct Hphase as [(_ & ->) | (_ & _ & _ & (q & ->))]; simpl; lia.
  - destruct Hphase as [(L & Hp) | (L & _ & _ & (q & Hp))];
      rewrite L, Hp; split; congruence.
Qed.

Lemma part000_never_result_and_error_witness :
  List.length
    (Part000.pending
       {| Part000.state :=
            Part000.setError (JSString [])
              (Part000.setLoading true
                 (Part000.setCalendarData (lit "x") Part000.initialState));
          Part000.pending := [PostAnalyzeCalendar (lit "x") (lit "this week")];
          Part000.sent := [PostAnalyzeCalendar (lit "x") (lit "this week")] |})
  <= 1.
Proof.
  apply (part000_never_result_and_error
           [Part000.TypeCalendarData (lit "x"); Part000.ClickAnalyze]).
  reflexivity.
Defined.

(** X23. In the manual-only revision every completed analysis, success
    or failure, ends with [loading] false, nothing in flight, and
    exactly one of {result present, error message non-empty}. *)
Theorem part000_completion_result_xor_error
    (events : list Part000.Event) (p p' : Part000.Page) (i : nat)
    (r : Outcome Analysis) :
  Part000.run Part000.initialPage events = Some p ->
  Part000.step p (Part000.Respond i r) = Some p' ->
  Part000.loading (Part000.state p') = false
  /\ Part000.pending p' = []
  /\ xorb (is_some (Part000.analysis (Part000.state p')))
          (truthy_value (Part000.error (Part000.state p'))) = true.
Proof.
  intros R S. destruct (part000_invariant events p R) as (Hphase & _ & _).
  unfold Part000.step in S.
  destruct (Part000.renders (Part000.App (Part000.state p)));
    simpl in S; [|discriminate S].
  destruct (nth_error (Part000.pending p) i) as [q|] eqn:N; [|discriminate S].
  injection S as <-.
  destruct Hphase as [(_ & Hp) | (_ & A & E & (q0 & Hp))].
  - rewrite Hp in N. destruct i; discriminate N.
  - rewrite Hp in N |- *.
    destruct i as [|i]; [|destruct i; discriminate N].
    split; [reflexivity|]. split; [reflexivity|].
    destruct r as [d|err]; simpl.
    + rewrite E. reflexivity.
    + rewrite A. simpl. apply or_else_truthy. reflexivity.
Qed.

Lemma part000_completion_result_xor_error_witness :
  exists p',
    Part000.step
      {| Part000.state :=
           Part000.setError (JSString [])
             (Part000.setLoading true
                (Part000.setCalendarData (lit "x") Part000.initialState));
         Part000.pending := [PostAnalyzeCalendar (lit "x") (lit "this week")];
         Part000.sent := [PostAnalyzeCalendar (lit "x") (lit "this week")] |}
      (Part000.Respond 0 (Rejected server_error)) = Some p'
    /\ Part000.loading (Part000.state p') = false
    /\ Part000.pending p' = []
    /\ xorb (is_some (Part000.analysis (Part000.state p')))
            (truthy_value (Part000.error (Part000.state p'))) = true.
Proof.
  eexists. split; [reflexivity|].
  eapply (part000_completion_result_xor_error
            [Part000.TypeCalendarData (lit "x"); Part000.ClickAnalyze]
            _ _ 0 (Rejected server_error)).
  - reflexivity.
  - reflexivity.
Defined.
